(** * The swip server reducer (src/server/reducer.js)

    A shallow embedding of the state reducer of the swip pairing server and
    the properties of its specification.

    Conventions of the embedding:
    - JavaScript numbers that hold pixel coordinates, sizes and millisecond
      timestamps are integers ([Z]); [Date.now()] returns integers and the
      arithmetic of the reducer (sums and differences) is exact on them as
      long as operands and results are at most 2^53 in magnitude. A
      property that rests on exact arithmetic bounds its inputs
      ([exactRange]).
    - The tables of event handlers are plain objects: a lookup that finds
      no own property goes on to [Object.prototype].
    - Objects used as dictionaries ([state.clients], [state.clusters]) are
      finite maps from property keys (strings) to records.
    - A property that the code reads before anything wrote it is modelled
      explicitly: [undefined], [null] or an absent array.
    - [throw] is the [Throw] result; [Date.now()] and [uid()] read two
      oracles through a small state-and-error monad. *)

From Stdlib Require Import ZArith.
From stdpp Require Import gmap strings list fin_maps.

Open Scope Z_scope.

(** ** Values *)

(** The value of a [clusterId] property: never written, [null], or a
    cluster id (a string produced by [uid()]). *)
Inductive JsRef : Type :=
| undefined
| null
| ref (s : string).

#[global] Instance JsRef_eq_dec : EqDecision JsRef.
Proof. solve_decision. Defined.

(** [_.isNil(v)]: [v] is [undefined] or [null]. *)
Definition isNil (v : JsRef) : bool :=
  match v with
  | ref _ => false
  | _ => true
  end.

(** JavaScript truthiness, as in [if (client.clusterId)]: the empty string is
    falsy like [undefined] and [null]. *)
Definition truthy (v : JsRef) : bool :=
  match v with
  | ref s => negb (String.eqb s "")
  | _ => false
  end.

(** The property key a value is turned into when it indexes an object
    ([_.omit(clusters, [clusterId])]). *)
Definition toKey (v : JsRef) : string :=
  match v with
  | undefined => "undefined"
  | null => "null"
  | ref s => s
  end.

(** The function-valued properties that a plain object inherits from
    [Object.prototype], by what the call [f(view, data)] of the bare
    function, with no receiver, does. *)
Inductive Inherited : Type :=
| ReturnsTag        (* toString: the string "[object Undefined]" *)
| ReturnsArgument   (* constructor: Object(view) is the view itself *)
| NeedsReceiver.    (* the others turn the undefined receiver into an
                       object first: TypeError *)

(** [Object.prototype[name]] when it is a function. The accessor
    [__proto__] yields an object, not a function. *)
Definition Object_prototype (name : string) : option Inherited :=
  if String.eqb name "toString" then Some ReturnsTag
  else if String.eqb name "constructor" then Some ReturnsArgument
  else if existsb (String.eqb name)
            ["toLocaleString"; "valueOf"; "hasOwnProperty"; "isPrototypeOf";
             "propertyIsEnumerable"; "__defineGetter__"; "__defineSetter__";
             "__lookupGetter__"; "__lookupSetter__"]
  then Some NeedsReceiver
  else None.

Module Size.
Record t : Type := mk { width : Z; height : Z }.
End Size.

Module Point.
Record t : Type := mk { x : Z; y : Z }.
End Point.

(** The object literal built by [connect] before the init hooks run:
    [{ id, size, transform, adjacentClientIDs, clusterID }]. *)
Module NewClient.
Record t : Type := mk {
  id : string;
  size : Size.t;
  transform : Point.t;
  adjacentClientIDs : list string;
  clusterID : string;
}.
End NewClient.

(** A client record of [state.clients]. The reducer reads [clusterId] and
    [connections]; [connect] writes [clusterID] and [adjacentClientIDs].
    All four properties are kept, each possibly absent. *)
Module Client.
Record t (Data : Type) : Type := mk {
  id : string;
  size : Size.t;
  transform : Point.t;
  clusterId : JsRef;
  connections : option (list string);
  adjacentClientIDs : option (list string);
  clusterID : option string;
  data : Data;
}.
Arguments mk {Data}.
Arguments id {Data}.
Arguments size {Data}.
Arguments transform {Data}.
Arguments clusterId {Data}.
Arguments connections {Data}.
Arguments adjacentClientIDs {Data}.
Arguments clusterID {Data}.
Arguments data {Data}.

Definition set_clusterId {Data} (v : JsRef) (c : t Data) : t Data :=
  mk (id c) (size c) (transform c) v (connections c)
     (adjacentClientIDs c) (clusterID c) (data c).
Definition set_connections {Data} (v : list string) (c : t Data) : t Data :=
  mk (id c) (size c) (transform c) (clusterId c) (Some v)
     (adjacentClientIDs c) (clusterID c) (data c).
Definition set_transform {Data} (v : Point.t) (c : t Data) : t Data :=
  mk (id c) (size c) v (clusterId c) (connections c)
     (adjacentClientIDs c) (clusterID c) (data c).
Definition set_data {Data} (v : Data) (c : t Data) : t Data :=
  mk (id c) (size c) (transform c) (clusterId c) (connections c)
     (adjacentClientIDs c) (clusterID c) v.
End Client.

Module Cluster.
Record t (Data : Type) : Type := mk { id : string; data : Data }.
Arguments mk {Data}.
Arguments id {Data}.
Arguments data {Data}.

Definition set_data {Data} (v : Data) (c : t Data) : t Data := mk (id c) v.
End Cluster.

(** A swipe: the action payload [{ id, direction, position }], and in the
    queue the same object with the [timestamp] set on receipt. *)
Module Swipe.
Record t : Type := mk {
  id : string;
  direction : string;
  position : Point.t;
  timestamp : option Z;
}.

Definition set_timestamp (v : Z) (s : t) : t :=
  mk (id s) (direction s) (position s) (Some v).
End Swipe.

(** ** Errors and effects *)

Inductive Error : Type :=
| UnhandledEvent (type : string)      (* Error(`Unhandled event: ${type}`) *)
| InvalidDirection (direction : string) (* Error(`Invalid direction: ...`) *)
| TypeError                           (* a property of undefined was read *)
| UpdateError.                        (* update() rejected spec or target *)

Inductive Res (A : Type) : Type :=
| Ok (a : A)
| Throw (e : Error).
Arguments Ok {A}.
Arguments Throw {A}.

(** The effects of the reducer are the readings of [Date.now()] and the
    draws of [uid()]: the world counts how many of each were consumed. *)
Record World : Type := mkWorld { ticks : nat; drawn : nat }.

Definition M (A : Type) : Type := World → Res (A * World).

#[global] Instance M_ret : MRet M := λ A a w, Ok (a, w).
#[global] Instance M_bind : MBind M := λ A B f m w,
  match m w with
  | Ok (a, w') => f a w'
  | Throw e => Throw e
  end.

Definition throw {A} (e : Error) : M A := λ _, Throw e.

(** An [update()] on a target that may be rejected. *)
Definition orUpdateError {A} (o : option A) : M A :=
  match o with
  | Some a => mret a
  | None => throw UpdateError
  end.

(** ** The data model *)

Record State (Data : Type) : Type := mkState {
  clusters : gmap string (Cluster.t Data);
  clients : gmap string (Client.t Data);
  swipes : list Swipe.t;
}.
Arguments mkState {Data}.
Arguments clusters {Data}.
Arguments clients {Data}.
Arguments swipes {Data}.

(** What [utils.getClusterState] hands to a hook. *)
Module ClusterState.
Record t (Data : Type) : Type := mk {
  cluster : option (Cluster.t Data);
  clients : list (Client.t Data);
}.
Arguments mk {Data}.
End ClusterState.

(** What [utils.getClientState] hands to a hook. *)
Module ClientState.
Record t (Data : Type) : Type := mk {
  client : option (Client.t Data);
  cluster : option (Cluster.t Data);
  clients : list (Client.t Data);
}.
Arguments mk {Data}.
End ClientState.

(** The [data] property of the object [{ data, clients }] that the swipe
    merge passes to [config.client.init]: [joinCluster] puts the cluster
    record [clusters[clusterId]] there, [createCluster] the new payload. *)
Inductive MergeData (Data : Type) : Type :=
| OfRecord (c : option (Cluster.t Data))
| OfPayload (d : Data).
Arguments OfRecord {Data}.
Arguments OfPayload {Data}.

Module Merge.
Record t (Data : Type) : Type := mk {
  data : MergeData Data;
  clients : list (Client.t Data);
}.
Arguments mk {Data}.
End Merge.

(** The two ways the reducer calls [config.client.init]:
    [init(client)] in [connect], [init(cluster, client)] in a merge. *)
Inductive ClientInitArgs (Data : Type) : Type :=
| InitNew (client : NewClient.t)
| InitMerged (cluster : Merge.t Data) (client : Client.t Data).
Arguments InitNew {Data}.
Arguments InitMerged {Data}.

(** The two ways the reducer calls [config.cluster.init]:
    [init(client)] in [connect], [init([clientA, clientB])] in a merge. *)
Inductive ClusterInitArgs (Data : Type) : Type :=
| InitSolo (client : NewClient.t)
| InitMembers (members : list (Client.t Data)).
Arguments InitSolo {Data}.
Arguments InitMembers {Data}.

(** The value a hook of [config.*.events] returns is only ever used as an
    [update()] spec. It is represented by what [update] does with it:
    [data] for the tick, which patches [{ data: result }]; [cluster] and
    [client] for a client event, which applies [result.cluster] and
    [result.client] when they are truthy. [None] is an [update] that throws. *)
Module Updates.
Record t (Data : Type) : Type := mk {
  data : Data → option Data;
  cluster : option (option (Cluster.t Data) → option (Cluster.t Data));
  client : option (option (Client.t Data) → option (Client.t Data));
}.
Arguments mk {Data}.
Arguments data {Data}.
Arguments cluster {Data}.
Arguments client {Data}.
End Updates.

(** The embedder's [config]: [config.client.init], the functions that
    [config.client.events] holds as its own properties (the tick hook is
    the entry ["update"]), [config.cluster.init] and
    [config.cluster.events.update]. A name under which the embedder put no
    function is [None]. The two [events] tables are plain objects, as an
    object literal makes them: what a lookup does not find among the own
    properties it looks for in [Object.prototype] (a table that hides an
    inherited function behind an own property that is no function, or that
    has no prototype, is not described). *)
Class Config (Data Payload : Type) : Type := {
  client_init : ClientInitArgs Data → Data;
  client_events :
    string → option (ClientState.t Data → option Payload → Updates.t Data);
  cluster_init : ClusterInitArgs Data → Data;
  cluster_events_update : option (ClusterState.t Data → Updates.t Data);
}.

(** The successive values of [Date.now()] and of [uid()]. *)
Class Platform : Type := {
  clock : nat → Z;
  uids : nat → string;
}.

Inductive Action (Payload : Type) : Type :=
| NEXT_STATE
| CLIENT_ACTION (id type : string) (data : Payload)
| CONNECT (id : string) (size : Size.t)
| SWIPE (swipe : Swipe.t)
| LEAVE_CLUSTER (id : string)
| DISCONNECT (id : string)
| OTHER (type : string).
Arguments NEXT_STATE {Payload}.
Arguments CLIENT_ACTION {Payload}.
Arguments CONNECT {Payload}.
Arguments SWIPE {Payload}.
Arguments LEAVE_CLUSTER {Payload}.
Arguments DISCONNECT {Payload}.
Arguments OTHER {Payload}.

(** ** The reducer *)

Section Reducer.

Context {Data Payload : Type} {cfg : Config Data Payload} {plat : Platform}.

#[local] Abbreviation Client := (Client.t Data).
#[local] Abbreviation Cluster := (Cluster.t Data).

Definition Date_now : M Z :=
  λ w, Ok (clock (ticks w), mkWorld (S (ticks w)) (drawn w)).

Definition uid : M string :=
  λ w, Ok (uids (drawn w), mkWorld (ticks w) (S (drawn w))).

Definition SWIPE_DELAY_TOLERANCE : Z := 500.

Definition initialState : State Data := mkState ∅ ∅ [].

(** *** utils.js *)

(** Modelled from the spec: [utils.getClientsInCluster] (utils.js is not
    among the sources). The members of a cluster are the clients whose
    [clusterId] references it, listed in the order the map enumerates them. *)
Definition getClientsInCluster (clients : gmap string Client) (clusterId : JsRef)
  : list Client :=
  filter (λ c, Client.clusterId c = clusterId) (map_to_list clients).*2.

(** Modelled from the spec: [utils.getClusterState], the view of a cluster
    and of all the clients in it. *)
Definition getClusterState (state : State Data) (id : string) : ClusterState.t Data :=
  ClusterState.mk (clusters state !! id)
                  (getClientsInCluster (clients state) (ref id)).

(** Modelled from the spec: [utils.getClientState], the view of a client,
    of its cluster and of all the clients in that cluster. *)
Definition getClientState (state : State Data) (id : string) : ClientState.t Data :=
  let client := clients state !! id in
  let clusterId := from_option Client.clusterId undefined client in
  ClientState.mk client
                 (clusters state !! toKey clusterId)
                 (getClientsInCluster (clients state) clusterId).

(** *** immutability-helper *)

(** [update(objects, { [key]: spec })]: the spec is applied to
    [objects[key]] and the result stored under [key]. *)
Definition updateAt {R} (key : string) (spec : option R → option R)
  (objects : gmap string R) : M (gmap string R) :=
  v ← orUpdateError (spec (objects !! key));
  mret (<[key := v]> objects).

(** A spec that reads properties of its target, such as
    [{ clusterId: { $set: v } }]: [update] throws on a missing target. *)
Definition onTarget {R} (spec : R → option R) : option R → option R :=
  λ target, target ≫= spec.

(** [update(objects, { [keyA]: specA, [keyB]: specB })]. In the object
    literal a repeated key keeps the last spec only. *)
Definition updatePair {R} (keyA : string) (specA : option R → option R)
  (keyB : string) (specB : option R → option R)
  (objects : gmap string R) : M (gmap string R) :=
  if decide (keyA = keyB) then updateAt keyB specB objects
  else
    objects' ← updateAt keyA specA objects;
    updateAt keyB specB objects'.

(** [{ connections: { $push: ids } }]. [$push] demands an array target
    ([update(): expected target of $push to be an array]): on a client
    without a [connections] property the update throws. *)
Definition push_connections (ids : list string) (c : Client) : option Client :=
  l ← Client.connections c;
  Some (Client.set_connections (l ++ ids) c).

(** [update(objects, changes)] where [changes] maps keys to [{ data: spec }]. *)
Definition patchData {R} (get : R → Data) (set : Data → R → R)
  (spec : Data → option Data) (target : option R) : option R :=
  r ← target;
  d ← spec (get r);
  Some (set d r).

Definition updateAll {R} (get : R → Data) (set : Data → R → R)
  (changes : gmap string (Data → option Data))
  (objects : gmap string R) : M (gmap string R) :=
  if decide (map_Forall (λ k spec, is_Some (patchData get set spec (objects !! k))) changes)
  then mret (merge (λ spec target,
                      match spec with
                      | Some spec => patchData get set spec target
                      | None => target
                      end) changes objects)
  else throw UpdateError.

(** *** nextState *)

Definition getClusterChanges (state : State Data)
  (next : ClusterState.t Data → Updates.t Data) (cluster : Cluster)
  : Data → option Data :=
  let clusterState := getClusterState state (Cluster.id cluster) in
  Updates.data (next clusterState).

Definition getAllClustersChanges (state : State Data)
  (next : ClusterState.t Data → Updates.t Data)
  : gmap string (Data → option Data) :=
  getClusterChanges state next <$> clusters state.

Definition hasCluster (client : Client) : bool :=
  negb (isNil (Client.clusterId client)).

Definition getClientChanges (state : State Data)
  (next : ClientState.t Data → option Payload → Updates.t Data) (client : Client)
  : Data → option Data :=
  let clientState := getClientState state (Client.id client) in
  Updates.data (next clientState None).

Definition getAllClientsChanges (state : State Data)
  (next : ClientState.t Data → option Payload → Updates.t Data)
  : gmap string (Data → option Data) :=
  let clusteredClients :=
    filter (λ kv, hasCluster kv.2 = true) (clients state) in
  getClientChanges state next <$> clusteredClients.

Definition nextState (state : State Data) : M (State Data) :=
  let getNextClientChanges := client_events "update" in
  let getNextClusterChanges := cluster_events_update in
  clusters' ←
    match getNextClusterChanges with
    | Some next =>
        updateAll Cluster.data Cluster.set_data
                  (getAllClustersChanges state next) (clusters state)
    | None => mret (clusters state)
    end;
  clients' ←
    match getNextClientChanges with
    | Some next =>
        updateAll Client.data Client.set_data
                  (getAllClientsChanges state next) (clients state)
    | None => mret (clients state)
    end;
  mret (mkState clusters' clients' (swipes state)).

(** *** clientAction *)

(** What [config.client.events[type]] finds when it is a function: a
    handler of the embedder, or a function of [Object.prototype]. *)
Inductive Callee : Type :=
| Registered (handler : ClientState.t Data → option Payload → Updates.t Data)
| Builtin (f : Inherited).

(** [config.client.events[type]], when [_.isFunction] accepts it. *)
Definition events_lookup (type : string) : option Callee :=
  match client_events type with
  | Some handler => Some (Registered handler)
  | None => Builtin <$> Object_prototype type
  end.

(** [handler(clientEventState, data)], seen as the spec [clientAction]
    makes of the result. The string of [toString] has no [cluster] and no
    [client] property. [Object(view)] is the view, whose [cluster] and
    [client] are records: as specs they are rejected by [update()], which
    finds a string where it expects a spec under the key [id]. *)
Definition call (handler : Callee) (clientEventState : ClientState.t Data)
  (data : Payload) : M (Updates.t Data) :=
  match handler with
  | Registered handler => mret (handler clientEventState (Some data))
  | Builtin ReturnsTag => mret (Updates.mk (λ _, None) None None)
  | Builtin ReturnsArgument =>
      mret (Updates.mk (λ _, None)
              ((λ _ _, None) <$> ClientState.cluster _ clientEventState)
              ((λ _ _, None) <$> ClientState.client _ clientEventState))
  | Builtin NeedsReceiver => throw TypeError
  end.

Definition clientAction (state : State Data) (id type : string) (data : Payload)
  : M (State Data) :=
  match events_lookup type with
  | None => throw (UnhandledEvent type)
  | Some handler =>
      match clients state !! id with
      | None => mret state
      | Some client =>
          if negb (truthy (Client.clusterId client)) then mret state
          else
            let clientEventState := getClientState state (Client.id client) in
            stateUpdates ← call handler clientEventState data;
            clusters' ←
              match Updates.cluster stateUpdates with
              | Some spec =>
                  updateAt (toKey (Client.clusterId client)) spec (clusters state)
              | None => mret (clusters state)
              end;
            clients' ←
              match Updates.client stateUpdates with
              | Some spec => updateAt (Client.id client) spec (clients state)
              | None => mret (clients state)
              end;
            mret (mkState clusters' clients' (swipes state))
      end
  end.

(** *** connect *)

(** [_.assign({}, client, { data })]: the literal of [connect] has no
    [clusterId] and no [connections] property. *)
Definition assign_data (client : NewClient.t) (data : Data) : Client :=
  Client.mk (NewClient.id client) (NewClient.size client)
            (NewClient.transform client) undefined None
            (Some (NewClient.adjacentClientIDs client))
            (Some (NewClient.clusterID client)) data.

Definition connect (state : State Data) (id : string) (size : Size.t)
  : M (State Data) :=
  clusterID ← uid;
  let client := NewClient.mk id size (Point.mk 0 0) [] clusterID in
  let clientData := client_init (InitNew client) in
  let clusterData := cluster_init (InitSolo client) in
  mret (mkState
          (<[clusterID := Cluster.mk clusterID clusterData]> (clusters state))
          (<[id := assign_data client clientData]> (clients state))
          (swipes state)).

(** *** doSwipe *)

(** The test of [getCoincidentSwipes] on one queue entry. An entry without
    a timestamp compares as [NaN < 500], which is false. *)
Definition coincident (now : Z) (swipe : Swipe.t) : bool :=
  match Swipe.timestamp swipe with
  | Some timestamp => bool_decide (now - timestamp < SWIPE_DELAY_TOLERANCE)
  | None => false
  end.

(** [_.filter] calls the predicate, and so [Date.now()], once per entry. *)
Fixpoint getCoincidentSwipes (swipes : list Swipe.t) : M (list Swipe.t) :=
  match swipes with
  | [] => mret []
  | swipe :: rest =>
      now ← Date_now;
      kept ← getCoincidentSwipes rest;
      mret (if coincident now swipe then swipe :: kept else kept)
  end.

Definition addSwipe (state : State Data) (swipes : list Swipe.t) (swipe : Swipe.t)
  : M (State Data) :=
  now ← Date_now;
  let swipeWithTimestamp := Swipe.set_timestamp now swipe in
  mret (mkState (clusters state) (clients state)
                (swipes ++ [swipeWithTimestamp])).

(** Coordinates, sizes and touch positions are JavaScript numbers. They
    are held here as integers, with [+] and [-] those of [Z]: that is what
    the code computes as long as the operands and the results are integers
    of magnitude at most 2^53, as whole pixels are. [exactRange] bounds
    the operands so that every sum and difference below stays there. *)
Definition exactRange (z : Z) : bool :=
  (- 2 ^ 50 <=? z) && (z <=? 2 ^ 50).

Definition exactPoint (p : Point.t) : bool :=
  exactRange (Point.x p) && exactRange (Point.y p).

Definition exactSize (s : Size.t) : bool :=
  exactRange (Size.width s) && exactRange (Size.height s).

Definition getTransform (clientA : Client) (swipeA : Swipe.t)
  (clientB : Client) (swipeB : Swipe.t) : M Point.t :=
  let a := Client.transform clientA in
  let pA := Swipe.position swipeA in
  let pB := Swipe.position swipeB in
  if String.eqb (Swipe.direction swipeA) "LEFT" then
    mret (Point.mk (Point.x a - Size.width (Client.size clientB))
                   (Point.y a + (Point.y pA - Point.y pB)))
  else if String.eqb (Swipe.direction swipeA) "RIGHT" then
    mret (Point.mk (Point.x a + Size.width (Client.size clientA))
                   (Point.y a + (Point.y pA - Point.y pB)))
  else if String.eqb (Swipe.direction swipeA) "UP" then
    mret (Point.mk (Point.x a + (Point.x pA - Point.x pB))
                   (Point.y a - Size.height (Client.size clientB)))
  else if String.eqb (Swipe.direction swipeA) "DOWN" then
    mret (Point.mk (Point.x a + (Point.x pA - Point.x pB))
                   (Point.y a + Size.height (Client.size clientA)))
  else throw (InvalidDirection (Swipe.direction swipeA)).

(** The spec [joinCluster] builds for the client that stays. *)
Definition hostSpec (swipeB : Swipe.t) : option Client → option Client :=
  onTarget (push_connections [Swipe.id swipeB]).

(** The spec the merges build for a client that enters a cluster:
    [clusterId], [data] and, for the client that is placed, [transform] are
    set, then the partner is pushed on [connections]. *)
Definition memberSpec (clusterId : JsRef) (data : Data)
  (transform : option Point.t) (partner : Swipe.t) : option Client → option Client :=
  onTarget (λ c,
    let c := Client.set_clusterId clusterId c in
    let c := Client.set_data data c in
    let c := from_option (λ t, Client.set_transform t c) c transform in
    push_connections [Swipe.id partner] c).

(** [clientB] is [state.clients[swipeB.id]], possibly undefined: then the
    computed key [clientB.id] throws (after the init hook ran on it). *)
Definition joinCluster (state : State Data) (clientA : Client) (swipeA : Swipe.t)
  (clientB : option Client) (swipeB : Swipe.t) : M (State Data) :=
  let clusterId := Client.clusterId clientA in
  match clientB with
  | None => throw TypeError
  | Some clientB =>
      let cluster :=
        Merge.mk (OfRecord (clusters state !! toKey clusterId))
                 (getClientsInCluster (clients state) clusterId ++ [clientB]) in
      let clientData := client_init (InitMerged cluster clientB) in
      transform ← getTransform clientA swipeA clientB swipeB;
      clients' ←
        updatePair (Client.id clientA) (hostSpec swipeB)
                   (Client.id clientB)
                   (memberSpec clusterId clientData (Some transform) swipeA)
                   (clients state);
      mret (mkState (clusters state) clients' (swipes state))
  end.

Definition createCluster (state : State Data) (clientA : Client) (swipeA : Swipe.t)
  (clientB : Client) (swipeB : Swipe.t) : M (State Data) :=
  clusterId ← uid;
  let clusterData := cluster_init (InitMembers [clientA; clientB]) in
  let cluster := Merge.mk (OfPayload clusterData) [clientA; clientB] in
  let clientAData := client_init (InitMerged cluster clientA) in
  let clientBData := client_init (InitMerged cluster clientB) in
  transform ← getTransform clientA swipeA clientB swipeB;
  clients' ←
    updatePair (Client.id clientA)
               (memberSpec (ref clusterId) clientAData None swipeB)
               (Client.id clientB)
               (memberSpec (ref clusterId) clientBData (Some transform) swipeA)
               (clients state);
  mret (mkState (<[clusterId := Cluster.mk clusterId clusterData]> (clusters state))
                clients' (swipes state)).

Definition clusterClients (state : State Data) (swipeA swipeB : Swipe.t)
  : M (State Data) :=
  let clientA := clients state !! Swipe.id swipeA in
  let clientB := clients state !! Swipe.id swipeB in
  match clientA with
  | None => throw TypeError
  | Some clientA =>
      if truthy (Client.clusterId clientA) then
        joinCluster state clientA swipeA clientB swipeB
      else
        match clientB with
        | None => throw TypeError
        | Some clientB =>
            if truthy (Client.clusterId clientB) then
              joinCluster state clientB swipeB (Some clientA) swipeA
            else createCluster state clientA swipeA clientB swipeB
        end
  end.

Definition doSwipe (state : State Data) (swipe : Swipe.t) : M (State Data) :=
  swipes ← getCoincidentSwipes (swipes state);
  match swipes with
  | [] => addSwipe state swipes swipe
  | swipeB :: _ =>
      let swipeA := swipe in
      merged ← clusterClients state swipeA swipeB;
      mret (mkState (clusters merged) (clients merged) [])
  end.

(** *** leaveCluster and disconnect *)

(** [_.omit(objects, [key])] for a [key] that lodash reads as the name of
    a property: that property is left out. (A string that is not a
    property of [objects] and holds a dot or a bracket is read as a path
    into a nested object; what [_.omit] then leaves out lies inside
    another record and is not described here.) *)
Definition omit {R} (objects : gmap string R) (key : JsRef) : gmap string R :=
  delete (toKey key) objects.

Definition hasPathSyntax (s : string) : bool :=
  match String.index 0 "." s, String.index 0 "[" s with
  | None, None => false
  | _, _ => true
  end.

(** A test that is enough for lodash to read [key] as the name of a
    property of [objects]: it is nil, or [objects] has a property of that
    name, or it holds neither a dot nor a bracket. *)
Definition readAsKey {R} (objects : gmap string R) (key : JsRef) : bool :=
  match key with
  | ref s => bool_decide (is_Some (objects !! s)) || negb (hasPathSyntax s)
  | _ => true
  end.

Definition removeEmptyCluster (clusters : gmap string Cluster)
  (clients : gmap string Client) (clusterId : JsRef) : gmap string Cluster :=
  if bool_decide (1 < length (getClientsInCluster clients clusterId))%nat
  then clusters
  else omit clusters clusterId.

Definition leaveCluster (state : State Data) (id : string) : M (State Data) :=
  match clients state !! id with
  | None => mret state
  | Some client =>
      let clusterId := Client.clusterId client in
      if isNil clusterId then mret state
      else
        clients' ← updateAt id (onTarget (λ c, Some (Client.set_clusterId null c)))
                            (clients state);
        mret (mkState (removeEmptyCluster (clusters state) (clients state) clusterId)
                      clients' (swipes state))
  end.

Definition disconnect (state : State Data) (id : string) : M (State Data) :=
  match clients state !! id with
  | None => mret state
  | Some client =>
      let clusterId := Client.clusterId client in
      mret (mkState (removeEmptyCluster (clusters state) (clients state) clusterId)
                    (omit (clients state) (ref id))
                    (swipes state))
  end.

(** *** The reducer *)

Definition reducer (state : option (State Data)) (action : Action Payload)
  : M (State Data) :=
  let state := default initialState state in
  match action with
  | NEXT_STATE => nextState state
  | CLIENT_ACTION id type data => clientAction state id type data
  | CONNECT id size => connect state id size
  | SWIPE swipe => doSwipe state swipe
  | LEAVE_CLUSTER id => leaveCluster state id
  | DISCONNECT id => disconnect state id
  | OTHER _ => mret state
  end.

(** ** Runs of the reducer *)

(** The states the store can hold: the initial state and every state an
    action produced from one of them, whatever the clock and the
    identifiers drawn so far. *)
Inductive reachable : State Data → Prop :=
| reachable_initial : reachable initialState
| reachable_step state action w state' w' :
    reachable state →
    reducer (Some state) action w = Ok (state', w') →
    reachable state'.

(** Every client record is as [connect] stores it: no [clusterId], no
    [connections], the cluster id under [clusterID]. *)
Definition as_connected (state : State Data) : Prop :=
  ∀ id client, clients state !! id = Some client →
    Client.clusterId client = undefined
    ∧ Client.connections client = None
    ∧ is_Some (Client.clusterID client).

(** The pairing scenario of the specification: two clients of size 100 x 100
    connect, client 1 swipes right at (50, 50), client 2 swipes left at
    (50, 50). *)
Definition pairing_scenario : M (State Data) :=
  s1 ← reducer None (CONNECT "1" (Size.mk 100 100));
  s2 ← reducer (Some s1) (CONNECT "2" (Size.mk 100 100));
  s3 ← reducer (Some s2) (SWIPE (Swipe.mk "1" "RIGHT" (Point.mk 50 50) None));
  reducer (Some s3) (SWIPE (Swipe.mk "2" "LEFT" (Point.mk 50 50) None)).

(** The queue entries that pass the filter of [getCoincidentSwipes] when
    the first reading of the clock is the [k]-th. *)
Fixpoint coincidentFrom (k : nat) (swipes : list Swipe.t) : list Swipe.t :=
  match swipes with
  | [] => []
  | swipe :: rest =>
      if coincident (clock k) swipe then swipe :: coincidentFrom (S k) rest
      else coincidentFrom (S k) rest
  end.

End Reducer.

(** ** Sample embedders

    A concrete configuration and platform on which the properties below are
    evaluated: payloads are integers, the events table of clients is the
    object literal [{ touch, update }], so that ["touch"] is the only
    registered client event besides the tick hook ["update"], which adds 1
    to the data of a client; the tick hook of clusters adds 10; and the
    clock advances by 100 ms per reading. *)

Module Sample.

Definition config : Config Z unit := {|
  client_init := λ _, 0;
  client_events := λ type,
    if String.eqb type "touch"
    then Some (λ _ _, Updates.mk (λ d, Some d) None None)
    else if String.eqb type "update"
    then Some (λ _ _, Updates.mk (λ d, Some (d + 1)) None None)
    else None;
  cluster_init := λ _, 1;
  cluster_events_update := Some (λ _, Updates.mk (λ d, Some (d + 10)) None None);
|}.

Fixpoint uid_of (n : nat) : string :=
  match n with
  | O => "u"
  | S n => "u" +:+ uid_of n
  end.

Definition platform : Platform := {|
  clock := λ n, 1000 + 100 * Z.of_nat n;
  uids := uid_of;
|}.

(** A clock that lets 501 ms pass between two readings. *)
Definition slow : Platform := {|
  clock := λ n, 501 * Z.of_nat n;
  uids := uid_of;
|}.

(** A clock that lets 499 ms pass between two readings. *)
Definition quick : Platform := {|
  clock := λ n, 499 * Z.of_nat n;
  uids := uid_of;
|}.

Definition w0 : World := mkWorld 0 0.

Definition client (id : string) (clusterId : JsRef) (width height : Z) : Client.t Z :=
  Client.mk id (Size.mk width height) (Point.mk 0 0) clusterId (Some [])
            None None 0.

(** Two clients in one cluster ["k"]. *)
Definition paired : State Z :=
  mkState {[ "k" := Cluster.mk "k" 7 ]}
          (<[ "a" := client "a" (ref "k") 100 50 ]>
             {[ "b" := client "b" (ref "k") 80 40 ]})
          [].

(** Client ["a"] alone in cluster ["k"] and client ["b"] alone in cluster
    ["m"]. *)
Definition neighbours : State Z :=
  mkState (<[ "k" := Cluster.mk "k" 7 ]> {[ "m" := Cluster.mk "m" 8 ]})
          (<[ "a" := client "a" (ref "k") 100 50 ]>
             {[ "b" := client "b" (ref "m") 80 40 ]})
          [].

(** Client ["a"] alone in cluster ["k"], client ["c"] in no cluster, and a
    pending swipe of ["c"] received at time 900. *)
Definition hosting : State Z :=
  mkState {[ "k" := Cluster.mk "k" 7 ]}
          (<[ "a" := client "a" (ref "k") 100 50 ]>
             {[ "c" := client "c" undefined 80 40 ]})
          [Swipe.mk "c" "LEFT" (Point.mk 0 5) (Some 900)].

(** A queue that holds one swipe received at time 0. *)
Definition stale : State Z :=
  mkState ∅ ∅ [Swipe.mk "b" "LEFT" (Point.mk 0 5) (Some 0)].

(** Clients ["a"] and ["c"] in no cluster, each with a [connections] array,
    and a pending swipe of ["c"] received at time 0. *)
Definition waiting : State Z :=
  mkState ∅
          (<[ "a" := client "a" undefined 100 50 ]>
             {[ "c" := client "c" undefined 80 40 ]})
          [Swipe.mk "c" "LEFT" (Point.mk 0 5) (Some 0)].

(** The state after client ["1"] connected to the initial state. *)
Definition connected : State Z :=
  mkState {[ "u" := Cluster.mk "u" 1 ]}
          {[ "1" := Client.mk "1" (Size.mk 100 100) (Point.mk 0 0) undefined None
                              (Some []) (Some "u") 0 ]}
          [].

(** [connected] after client ["1"] swiped at time 1000 and met no partner. *)
Definition swiped : State Z :=
  mkState (clusters connected) (clients connected)
          [Swipe.mk "1" "RIGHT" (Point.mk 50 50) (Some 1000)].

(** The clients of the pairing scenario, had [connect] given them a
    [connections] array, and the first swipe of the scenario, received at
    time 1000. *)
Definition scenario_with_connections : State Z :=
  mkState ∅
          (<[ "1" := client "1" undefined 100 100 ]>
             {[ "2" := client "2" undefined 100 100 ]})
          [Swipe.mk "1" "RIGHT" (Point.mk 50 50) (Some 1000)].

(** The swipe of client ["a"]: to the right, at (10, 5). *)
Definition swipe_a : Swipe.t := Swipe.mk "a" "RIGHT" (Point.mk 10 5) None.


(** A configuration whose cluster tick rejects negative data, and whose
    client event ["bump"] adds 1 to the data of the client's cluster and
    sets the data of the client to 5. *)
Definition strict : Config Z unit := {|
  client_init := λ _, 0;
  client_events := λ type,
    if String.eqb type "bump"
    then Some (λ _ _,
           Updates.mk (λ d, Some d)
             (Some (fmap (λ c, Cluster.set_data (Cluster.data c + 1) c)))
             (Some (fmap (Client.set_data 5))))
    else None;
  cluster_init := λ _, 1;
  cluster_events_update :=
    Some (λ _, Updates.mk (λ d, if bool_decide (0 ≤ d) then Some (d + 10) else None)
                          None None);
|}.

(** Client ["a"] in the cluster ["k"], whose data is negative. *)
Definition negative : State Z :=
  mkState {[ "k" := Cluster.mk "k" (-1) ]}
          {[ "a" := client "a" (ref "k") 100 50 ]}
          [].

(** Client ["a"] in the cluster ["k"], with its own swipe pending since
    time 0. *)
Definition shifting : State Z :=
  mkState {[ "k" := Cluster.mk "k" 7 ]}
          {[ "a" := client "a" (ref "k") 100 50 ]}
          [Swipe.mk "a" "RIGHT" (Point.mk 10 5) (Some 0)].

(** Clients ["a"] and ["c"] in no cluster and three pending swipes: one
    long expired, then the swipe of ["c"], then one more. *)
Definition crowded : State Z :=
  mkState ∅
          (<[ "a" := client "a" undefined 100 50 ]>
             {[ "c" := client "c" undefined 80 40 ]})
          [Swipe.mk "b" "UP" (Point.mk 1 1) (Some (-1000));
           Swipe.mk "c" "LEFT" (Point.mk 0 5) (Some 900);
           Swipe.mk "d" "DOWN" (Point.mk 2 2) (Some 950)].

End Sample.

(** ** Properties *)

Section Properties.

Context {Data Payload : Type} {cfg : Config Data Payload} {plat : Platform}.

#[local] Abbreviation Client := (Client.t Data).
#[local] Abbreviation Cluster := (Cluster.t Data).

(** *** The monad *)

Lemma bind_Ok {A B} (m : M A) (f : A → M B) w a w' :
  m w = Ok (a, w') → (m ≫= f) w = f a w'.
Proof. intros Hm. unfold mbind, M_bind. by rewrite Hm. Qed.

Lemma bind_Throw {A B} (m : M A) (f : A → M B) w e :
  m w = Throw e → (m ≫= f) w = Throw e.
Proof. intros Hm. unfold mbind, M_bind. by rewrite Hm. Qed.

Lemma bind_inv {A B} (m : M A) (f : A → M B) w b w' :
  (m ≫= f) w = Ok (b, w') → ∃ a w1, m w = Ok (a, w1) ∧ f a w1 = Ok (b, w').
Proof.
  unfold mbind, M_bind. destruct (m w) as [[a w1]|e]; [|done].
  intros Hf. by exists a, w1.
Qed.

Lemma ret_inv {A} (a b : A) w w' :
  (mret a : M A) w = Ok (b, w') → a = b ∧ w = w'.
Proof. unfold mret, M_ret. by intros [= -> ->]. Qed.

(** *** getTransform *)

(** [getTransform] always returns or throws [InvalidDirection], and leaves
    the world as it is. *)
Lemma getTransform_outcome (anchor joiner : Client) (anchorSwipe joinerSwipe : Swipe.t)
  (w : World) :
  getTransform anchor anchorSwipe joiner joinerSwipe w
  = Throw (InvalidDirection (Swipe.direction anchorSwipe))
  ∨ ∃ t, getTransform anchor anchorSwipe joiner joinerSwipe w = Ok (t, w).
Proof.
  unfold getTransform.
  repeat (case_match; [right; by eexists|]). by left.
Qed.

Lemma getTransform_world (anchor joiner : Client) (anchorSwipe joinerSwipe : Swipe.t)
  (t : Point.t) (w w' : World) :
  getTransform anchor anchorSwipe joiner joinerSwipe w = Ok (t, w') →
  w' = w ∧ ∀ w2, getTransform anchor anchorSwipe joiner joinerSwipe w2 = Ok (t, w2).
Proof.
  unfold getTransform.
  repeat (case_match; [by intros [= <- <-]|]). done.
Qed.

(** C8. The transform of the joining client: left of the anchor for LEFT,
    right of it for RIGHT, above for UP, below for DOWN, each aligned on the
    two touch points; any other direction throws [InvalidDirection]; and
    pairing A (RIGHT at (10, 5), size 100 x 50) with B (LEFT at (0, 5),
    size 80 x 40) puts B at (A.x + 100, A.y + 0). *)
Theorem getTransform_spec (anchor joiner : Client) (anchorSwipe joinerSwipe : Swipe.t)
  (w : World) :
  let a := Client.transform anchor in
  let dy := Point.y (Swipe.position anchorSwipe) - Point.y (Swipe.position joinerSwipe) in
  let dx := Point.x (Swipe.position anchorSwipe) - Point.x (Swipe.position joinerSwipe) in
  let d := Swipe.direction anchorSwipe in
  (d = "LEFT" →
     getTransform anchor anchorSwipe joiner joinerSwipe w
     = Ok (Point.mk (Point.x a - Size.width (Client.size joiner)) (Point.y a + dy), w))
  ∧ (d = "RIGHT" →
     getTransform anchor anchorSwipe joiner joinerSwipe w
     = Ok (Point.mk (Point.x a + Size.width (Client.size anchor)) (Point.y a + dy), w))
  ∧ (d = "UP" →
     getTransform anchor anchorSwipe joiner joinerSwipe w
     = Ok (Point.mk (Point.x a + dx) (Point.y a - Size.height (Client.size joiner)), w))
  ∧ (d = "DOWN" →
     getTransform anchor anchorSwipe joiner joinerSwipe w
     = Ok (Point.mk (Point.x a + dx) (Point.y a + Size.height (Client.size anchor)), w))
  ∧ (d ≠ "LEFT" → d ≠ "RIGHT" → d ≠ "UP" → d ≠ "DOWN" →
     getTransform anchor anchorSwipe joiner joinerSwipe w = Throw (InvalidDirection d))
  ∧ (Client.size anchor = Size.mk 100 50 →
     Client.size joiner = Size.mk 80 40 →
     d = "RIGHT" → Swipe.position anchorSwipe = Point.mk 10 5 →
     Swipe.direction joinerSwipe = "LEFT" → Swipe.position joinerSwipe = Point.mk 0 5 →
     getTransform anchor anchorSwipe joiner joinerSwipe w
     = Ok (Point.mk (Point.x a + 100) (Point.y a + 0), w)).
Proof.
  intros a dy dx d. subst a dy dx d. unfold getTransform.
  repeat split.
  - intros ->. done.
  - intros ->. done.
  - intros ->. done.
  - intros ->. done.
  - intros H1 H2 H3 H4.
    rewrite !(proj2 (String.eqb_neq _ _)); done.
  - intros -> _ -> -> _ ->. done.
Qed.

(** *** clientAction *)

(** A registered handler is found before [Object.prototype] is looked at,
    and called as it is. *)
Lemma clientAction_registered (state : State Data) (id type : string)
  (data : Payload) (handler : ClientState.t Data → option Payload → Updates.t Data)
  (w : World) :
  client_events type = Some handler →
  clientAction state id type data w
  = match clients state !! id with
    | None => mret state
    | Some client =>
        if negb (truthy (Client.clusterId client)) then mret state
        else
          let stateUpdates :=
            handler (getClientState state (Client.id client)) (Some data) in
          clusters' ←
            match Updates.cluster stateUpdates with
            | Some spec =>
                updateAt (toKey (Client.clusterId client)) spec (clusters state)
            | None => mret (clusters state)
            end;
          clients' ←
            match Updates.client stateUpdates with
            | Some spec => updateAt (Client.id client) spec (clients state)
            | None => mret (clients state)
            end;
          mret (mkState clusters' clients' (swipes state))
    end w.
Proof.
  intros Hh. unfold clientAction, events_lookup. rewrite Hh.
  destruct (clients state !! id) as [client|]; [|done].
  by destruct (truthy (Client.clusterId client)).
Qed.

Lemma call_Ok (handler : Callee) (view : ClientState.t Data) (data : Payload)
  (updates : Updates.t Data) (w w' : World) :
  call handler view data w = Ok (updates, w') → w' = w.
Proof.
  destruct handler as [h|[]]; simpl; try done; by intros [= _ <-].
Qed.

(** C7, as the code has it. [clientAction] throws [UnhandledEvent],
    through the reducer as well, exactly when [config.client.events[type]]
    is not a function: no handler is registered under the type and the
    type is not the name of a function of [Object.prototype]. A type with
    no registered handler that names such a function ([toString],
    [constructor], [hasOwnProperty], ...) passes the test. When the test
    is passed, an unknown client or a client that is in no cluster gives
    back the state it was given. *)
Theorem clientAction_unhandled_or_noop (state : State Data) (id type : string)
  (data : Payload) (w : World) :
  (client_events type = None → Object_prototype type = None →
     clientAction state id type data w = Throw (UnhandledEvent type)
     ∧ reducer (Some state) (CLIENT_ACTION id type data) w
       = Throw (UnhandledEvent type))
  ∧ (is_Some (client_events type) ∨ is_Some (Object_prototype type) →
     clientAction state id type data w ≠ Throw (UnhandledEvent type)
     ∧ (clients state !! id = None
        ∨ (∃ client, clients state !! id = Some client
                     ∧ truthy (Client.clusterId client) = false) →
        clientAction state id type data w = Ok (state, w)
        ∧ reducer (Some state) (CLIENT_ACTION id type data) w = Ok (state, w))).
Proof.
  split.
  - intros Hnone Hproto. simpl. unfold clientAction, events_lookup.
    by rewrite Hnone, Hproto.
  - intros Hfound.
    assert (is_Some (events_lookup type)) as [callee Hcallee].
    { unfold events_lookup. destruct Hfound as [[h ->] | [f Hf]]; [by eexists|].
      destruct (client_events type); [by eexists|]. rewrite Hf. by eexists. }
    simpl. unfold clientAction. rewrite Hcallee. split.
    + destruct (clients state !! id) as [client|]; [|done].
      destruct (truthy (Client.clusterId client)); [|done]. simpl.
      intros Hthrow.
      destruct (call callee (getClientState state (Client.id client)) data w)
        as [[u w1]|e] eqn:Hcall.
      * rewrite (bind_Ok _ _ _ _ _ Hcall) in Hthrow.
        destruct (match Updates.cluster u with
                  | Some spec =>
                      updateAt (toKey (Client.clusterId client)) spec (clusters state)
                  | None => mret (clusters state)
                  end w1) as [[cl w2]|e1] eqn:Hcl.
        -- rewrite (bind_Ok _ _ _ _ _ Hcl) in Hthrow.
           destruct (match Updates.client u with
                     | Some spec => updateAt (Client.id client) spec (clients state)
                     | None => mret (clients state)
                     end w2) as [[cs w3]|e2] eqn:Hcs.
           ++ by rewrite (bind_Ok _ _ _ _ _ Hcs) in Hthrow.
           ++ rewrite (bind_Throw _ _ _ _ Hcs) in Hthrow. injection Hthrow as ->.
              destruct (Updates.client u); [|done].
              unfold updateAt in Hcs. by destruct (o _).
        -- rewrite (bind_Throw _ _ _ _ Hcl) in Hthrow. injection Hthrow as ->.
           destruct (Updates.cluster u); [|done].
           unfold updateAt in Hcl. by destruct (o _).
      * rewrite (bind_Throw _ _ _ _ Hcall) in Hthrow. injection Hthrow as ->.
        by destruct callee as [h|[]].
    + intros [-> | (client & -> & ->)]; done.
Qed.

(** *** connect *)

(** [connect] always returns. *)
Lemma connect_run (state : State Data) (id : string) (size : Size.t) (w : World) :
  let clusterID := uids (drawn w) in
  let client := NewClient.mk id size (Point.mk 0 0) [] clusterID in
  connect state id size w
  = Ok (mkState
          (<[clusterID := Cluster.mk clusterID (cluster_init (InitSolo client))]>
             (clusters state))
          (<[id := assign_data client (client_init (InitNew client))]>
             (clients state))
          (swipes state),
        mkWorld (ticks w) (S (drawn w))).
Proof. reflexivity. Qed.

(** C9, as the code has it. [connect] draws a cluster id and stores a
    client with the given id and size, transform (0, 0) and the data of the
    client-init hook, and a cluster with the data of the cluster-init hook.
    The client has an empty [adjacentClientIDs] array and no [connections]
    property, and the cluster id is under [clusterID], not [clusterId]. *)
Theorem connect_result (state : State Data) (id : string) (size : Size.t) (w : World) :
  let clusterID := uids (drawn w) in
  let client := NewClient.mk id size (Point.mk 0 0) [] clusterID in
  let stored :=
    Client.mk id size (Point.mk 0 0) undefined None (Some []) (Some clusterID)
              (client_init (InitNew client)) in
  ∃ state',
    connect state id size w = Ok (state', mkWorld (ticks w) (S (drawn w)))
    ∧ clients state' !! id = Some stored
    ∧ clusters state' !! clusterID
      = Some (Cluster.mk clusterID (cluster_init (InitSolo client)))
    ∧ Client.connections stored = None
    ∧ Client.adjacentClientIDs stored = Some [].
Proof.
  intros clusterID client stored.
  eexists. split; [apply connect_run|].
  simpl. by rewrite !lookup_insert_eq.
Qed.

(** *** doSwipe: the coincidence window *)

(** [getCoincidentSwipes] always returns: it reads the clock once per queue
    entry and keeps the entries that pass the test at their own reading. *)
Lemma getCoincidentSwipes_run (queue : list Swipe.t) (w : World) :
  getCoincidentSwipes queue w
  = Ok (coincidentFrom (ticks w) queue,
        mkWorld (ticks w + length queue) (drawn w)).
Proof.
  revert w. induction queue as [|swipe rest IH]; intros [k n]; simpl.
  - unfold mret, M_ret. do 3 f_equal. lia.
  - unfold mbind, M_bind, Date_now. simpl. rewrite IH. simpl.
    unfold mret, M_ret. do 3 f_equal. lia.
Qed.

Lemma coincidentFrom_stale (queue : list Swipe.t) (k : nat) :
  (∀ i p, queue !! i = Some p → coincident (clock (k + i)) p = false) →
  coincidentFrom k queue = [].
Proof.
  revert k. induction queue as [|swipe rest IH]; intros k Hstale; [done|].
  simpl. rewrite <- (Nat.add_0_r k) at 1.
  rewrite (Hstale 0%nat swipe eq_refl).
  apply IH. intros i p Hp. replace (S k + i)%nat with (k + S i)%nat by lia.
  by apply Hstale.
Qed.

Lemma doSwipe_no_candidate (state : State Data) (swipe : Swipe.t) (w : World) :
  coincidentFrom (ticks w) (swipes state) = [] →
  let received := (ticks w + length (swipes state))%nat in
  doSwipe state swipe w
  = Ok (mkState (clusters state) (clients state)
                [Swipe.set_timestamp (clock received) swipe],
        mkWorld (S received) (drawn w)).
Proof.
  intros Hnone received. unfold doSwipe.
  rewrite (bind_Ok _ _ _ _ _ (getCoincidentSwipes_run _ _)), Hnone.
  reflexivity.
Qed.

Lemma doSwipe_candidate (state : State Data) (swipe swipeB : Swipe.t)
  (others : list Swipe.t) (w : World) :
  coincidentFrom (ticks w) (swipes state) = swipeB :: others →
  doSwipe state swipe w
  = (merged ← clusterClients state swipe swipeB;
     mret (mkState (clusters merged) (clients merged) []))
      (mkWorld (ticks w + length (swipes state)) (drawn w)).
Proof.
  intros Hsome. unfold doSwipe.
  rewrite (bind_Ok _ _ _ _ _ (getCoincidentSwipes_run _ _)), Hsome.
  reflexivity.
Qed.

(** C2. With one pending swipe stamped [t] in the queue, a swipe that the
    reducer receives at [t + 501] is not matched with it: it is stamped and
    queued, clients and clusters stay as they are. A swipe received at
    [t + 499] is matched with it: the pending swipe is the partner handed
    to [clusterClients], and the outcome of the action is the outcome of
    that merge with the queue emptied. *)
Theorem coincidence_window (state : State Data) (pending swipe : Swipe.t)
  (t : Z) (w : World) :
  swipes state = [pending] →
  Swipe.timestamp pending = Some t →
  (clock (ticks w) = t + 501 →
     doSwipe state swipe w
     = Ok (mkState (clusters state) (clients state)
                   [Swipe.set_timestamp (clock (S (ticks w))) swipe],
           mkWorld (S (S (ticks w))) (drawn w)))
  ∧ (clock (ticks w) = t + 499 →
     doSwipe state swipe w
     = (merged ← clusterClients state swipe pending;
        mret (mkState (clusters merged) (clients merged) []))
         (mkWorld (S (ticks w)) (drawn w))).
Proof.
  intros Hqueue Hstamp. split; intros Hnow.
  - rewrite doSwipe_no_candidate; rewrite Hqueue; simpl.
    + by replace (ticks w + 1)%nat with (S (ticks w)) by lia.
    + unfold coincident. rewrite Hstamp, Hnow.
      rewrite bool_decide_eq_false_2; [done|]. unfold SWIPE_DELAY_TOLERANCE. lia.
  - rewrite (doSwipe_candidate _ _ pending []); rewrite Hqueue; simpl.
    + by replace (ticks w + 1)%nat with (S (ticks w)) by lia.
    + unfold coincident. rewrite Hstamp, Hnow.
      rewrite bool_decide_eq_true_2; [done|]. unfold SWIPE_DELAY_TOLERANCE. lia.
Qed.

(** C6, as the code has it. A swipe that finds every queue entry outside the
    tolerance window replaces the stored queue by itself, stamped on
    receipt: the stale entries are dropped. A swipe that finds a candidate
    and merges leaves the queue empty. *)
Theorem doSwipe_queue (state : State Data) (swipe : Swipe.t) (w : World) :
  ((∀ i p, swipes state !! i = Some p →
           coincident (clock (ticks w + i)) p = false) →
     let received := (ticks w + length (swipes state))%nat in
     doSwipe state swipe w
     = Ok (mkState (clusters state) (clients state)
                   [Swipe.set_timestamp (clock received) swipe],
           mkWorld (S received) (drawn w)))
  ∧ (∀ state' w',
       coincidentFrom (ticks w) (swipes state) ≠ [] →
       doSwipe state swipe w = Ok (state', w') →
       swipes state' = []).
Proof.
  split.
  - intros Hstale. apply doSwipe_no_candidate. by apply coincidentFrom_stale.
  - intros state' w' Hsome Hrun.
    destruct (coincidentFrom (ticks w) (swipes state)) as [|swipeB others] eqn:Hc;
      [done|].
    rewrite (doSwipe_candidate _ _ _ _ _ Hc) in Hrun.
    apply bind_inv in Hrun as (merged & w1 & _ & Hret).
    apply ret_inv in Hret as [<- _]. done.
Qed.

(** *** Members of a cluster *)

Lemma getClientsInCluster_delete (cs : gmap string Client) (id : string)
  (client : Client) (clusterId : JsRef) :
  cs !! id = Some client →
  length (getClientsInCluster cs clusterId)
  = ((if decide (Client.clusterId client = clusterId) then 1 else 0)
     + length (getClientsInCluster (delete id cs) clusterId))%nat.
Proof.
  intros Hid. unfold getClientsInCluster.
  pose proof (map_to_list_delete cs id client Hid) as Hperm.
  rewrite <- Hperm. simpl. rewrite filter_cons.
  destruct (decide (Client.clusterId client = clusterId)); done.
Qed.

Lemma getClientsInCluster_insert (cs : gmap string Client) (id : string)
  (client : Client) (clusterId : JsRef) :
  length (getClientsInCluster (<[id := client]> cs) clusterId)
  = ((if decide (Client.clusterId client = clusterId) then 1 else 0)
     + length (getClientsInCluster (delete id cs) clusterId))%nat.
Proof.
  rewrite (getClientsInCluster_delete (<[id := client]> cs) id client);
    [|apply lookup_insert_eq].
  by rewrite delete_insert_eq.
Qed.

Lemma getClientsInCluster_elem (cs : gmap string Client) (clusterId : JsRef)
  (client : Client) :
  client ∈ getClientsInCluster cs clusterId
  ↔ ∃ id, cs !! id = Some client ∧ Client.clusterId client = clusterId.
Proof.
  unfold getClientsInCluster. rewrite list_elem_of_filter, list_elem_of_fmap.
  split.
  - intros [Hc ([id c] & -> & Hin)]. exists id. split; [|done].
    by apply elem_of_map_to_list in Hin.
  - intros (id & Hid & Hc). split; [done|]. exists (id, client). split; [done|].
    by apply elem_of_map_to_list.
Qed.

Lemma removeEmptyCluster_departure (cls : gmap string Cluster)
  (cs cs' : gmap string Client) (id cid : string) (client : Client) :
  cs !! id = Some client →
  Client.clusterId client = ref cid →
  length (getClientsInCluster cs' (ref cid))
  = length (getClientsInCluster (delete id cs) (ref cid)) →
  removeEmptyCluster cls cs (ref cid)
  = if bool_decide (getClientsInCluster cs' (ref cid) = [])
    then delete cid cls else cls.
Proof.
  intros Hid Hcid Hlen. unfold removeEmptyCluster, omit. simpl.
  rewrite (getClientsInCluster_delete cs id client) by done.
  rewrite decide_True by done. rewrite <- Hlen.
  destruct (getClientsInCluster cs' (ref cid)) as [|c rest].
  - rewrite bool_decide_eq_false_2 by (simpl; lia).
    by rewrite bool_decide_eq_true_2.
  - rewrite bool_decide_eq_true_2 by (simpl; lia).
    by rewrite bool_decide_eq_false_2.
Qed.

(** *** leaveCluster and disconnect *)

(** C3, as the code has it. For a client that belongs to a cluster,
    [leaveCluster] sets its [clusterId] to [null] and keeps the record,
    [disconnect] removes the record; both delete the cluster record exactly
    when the vacated cluster has no member left, and keep it when a member,
    even a single one, remains. *)
Theorem departure_cleanup (state : State Data) (id cid : string) (client : Client)
  (w : World) :
  clients state !! id = Some client →
  Client.clusterId client = ref cid →
  let left := <[id := Client.set_clusterId null client]> (clients state) in
  let gone := delete id (clients state) in
  leaveCluster state id w
  = Ok (mkState (if bool_decide (getClientsInCluster left (ref cid) = [])
                 then delete cid (clusters state) else clusters state)
                left (swipes state), w)
  ∧ disconnect state id w
    = Ok (mkState (if bool_decide (getClientsInCluster gone (ref cid) = [])
                   then delete cid (clusters state) else clusters state)
                  gone (swipes state), w).
Proof.
  intros Hid Hcid left gone. split.
  - unfold leaveCluster. rewrite Hid, Hcid. simpl.
    unfold updateAt, onTarget. rewrite Hid. simpl.
    unfold mbind, M_bind, mret, M_ret. simpl.
    rewrite (removeEmptyCluster_departure _ _ left id cid client Hid Hcid); [done|].
    subst left. rewrite getClientsInCluster_insert. by rewrite decide_False.
  - unfold disconnect. rewrite Hid, Hcid. unfold mret, M_ret, omit. simpl.
    by rewrite (removeEmptyCluster_departure _ _ gone id cid client Hid Hcid).
Qed.

(** *** What connect leaves behind *)

Lemma updateAll_no_changes {R} (get : R → Data) (set : Data → R → R)
  (objects : gmap string R) (w : World) :
  updateAll get set ∅ objects w = Ok (objects, w).
Proof.
  unfold updateAll. rewrite decide_True by apply map_Forall_empty.
  unfold mret, M_ret. do 2 f_equal. apply map_eq. intros k.
  rewrite lookup_merge, lookup_empty. by destruct (objects !! k).
Qed.

Lemma as_connected_no_changes (state : State Data)
  (next : ClientState.t Data → option Payload → Updates.t Data) :
  as_connected state → getAllClientsChanges state next = ∅.
Proof.
  intros Hfresh. unfold getAllClientsChanges. apply fmap_empty_iff.
  apply map_eq. intros id. rewrite lookup_empty.
  apply map_lookup_filter_None_2.
  destruct (clients state !! id) as [client|] eqn:Hid; [right|by left].
  intros c [= <-]. simpl. unfold hasCluster.
  destruct (Hfresh id client Hid) as (-> & _). done.
Qed.

Lemma updateAt_as_connected (state : State Data) (key : string) (clusterId : JsRef)
  (data : Data) (transform : option Point.t) (partner : Swipe.t) (w : World) :
  as_connected state →
  updateAt key (memberSpec clusterId data transform partner) (clients state) w
  = Throw UpdateError.
Proof.
  intros Hfresh. unfold updateAt, memberSpec, onTarget.
  destruct (clients state !! key) as [client|] eqn:Hkey; simpl; [|done].
  destruct (Hfresh key client Hkey) as (_ & Hconn & _).
  unfold push_connections. destruct transform; simpl; by rewrite Hconn.
Qed.

(** On clients as [connect] stores them, [createCluster] gets past
    [getTransform] only to have [update] reject the [$push] on the missing
    [connections] array. *)
Lemma createCluster_as_connected (state : State Data) (clientA clientB : Client)
  (swipeA swipeB : Swipe.t) (w : World) :
  as_connected state →
  createCluster state clientA swipeA clientB swipeB w
  = match getTransform clientA swipeA clientB swipeB
            (mkWorld (ticks w) (S (drawn w))) with
    | Ok _ => Throw UpdateError
    | Throw e => Throw e
    end.
Proof.
  intros Hfresh. unfold createCluster.
  set (w1 := mkWorld (ticks w) (S (drawn w))).
  rewrite (bind_Ok uid _ w (uids (drawn w)) w1 eq_refl). simpl.
  destruct (getTransform_outcome clientA clientB swipeA swipeB w1)
    as [Hbad | [t Hok]].
  - rewrite Hbad. by apply bind_Throw.
  - rewrite Hok, (bind_Ok _ _ _ _ _ Hok).
    apply bind_Throw. unfold updatePair. case_decide.
    + by apply updateAt_as_connected.
    + apply bind_Throw. by apply updateAt_as_connected.
Qed.

Lemma clusterClients_as_connected (state : State Data) (swipeA swipeB : Swipe.t)
  (w : World) :
  as_connected state →
  ∃ e, clusterClients state swipeA swipeB w = Throw e.
Proof.
  intros Hfresh. unfold clusterClients.
  destruct (clients state !! Swipe.id swipeA) as [clientA|] eqn:HA; [|by eexists].
  destruct (Hfresh _ _ HA) as (-> & _). simpl.
  destruct (clients state !! Swipe.id swipeB) as [clientB|] eqn:HB; [|by eexists].
  destruct (Hfresh _ _ HB) as (-> & _). simpl.
  rewrite createCluster_as_connected by done.
  destruct (getTransform _ _ _ _ _) as [?|e]; by eexists.
Qed.

Lemma nextState_as_connected (state state' : State Data) (w w' : World) :
  as_connected state →
  nextState state w = Ok (state', w') →
  clients state' = clients state ∧ swipes state' = swipes state.
Proof.
  intros Hfresh Hrun. unfold nextState in Hrun.
  apply bind_inv in Hrun as (clusters' & w1 & _ & Hrun).
  apply bind_inv in Hrun as (clients' & w2 & Hclients & Hret).
  apply ret_inv in Hret as [<- _]. simpl. split; [|done].
  destruct (client_events "update") as [next|].
  - rewrite as_connected_no_changes, updateAll_no_changes in Hclients by done.
    by injection Hclients as <- _.
  - by apply ret_inv in Hclients as [<- _].
Qed.

Lemma clientAction_as_connected (state : State Data) (id type : string)
  (data : Payload) (w : World) :
  as_connected state →
  clientAction state id type data w
  = match events_lookup type with
    | Some _ => Ok (state, w)
    | None => Throw (UnhandledEvent type)
    end.
Proof.
  intros Hfresh. unfold clientAction.
  destruct (events_lookup type) as [handler|]; [|done].
  destruct (clients state !! id) as [client|] eqn:Hid; [|done].
  by destruct (Hfresh _ _ Hid) as (-> & _).
Qed.

Lemma doSwipe_as_connected (state state' : State Data) (swipe : Swipe.t)
  (w w' : World) :
  as_connected state →
  doSwipe state swipe w = Ok (state', w') →
  clients state' = clients state.
Proof.
  intros Hfresh Hrun.
  destruct (coincidentFrom (ticks w) (swipes state)) as [|swipeB others] eqn:Hc.
  - rewrite doSwipe_no_candidate in Hrun by done. by injection Hrun as <- _.
  - rewrite (doSwipe_candidate _ _ _ _ _ Hc) in Hrun.
    apply bind_inv in Hrun as (merged & w1 & Hmerge & _).
    destruct (clusterClients_as_connected state swipe swipeB
                (mkWorld (ticks w + length (swipes state)) (drawn w)) Hfresh)
      as [e He].
    congruence.
Qed.

Lemma reducer_as_connected (state state' : State Data) (action : Action Payload)
  (w w' : World) :
  as_connected state →
  reducer (Some state) action w = Ok (state', w') →
  as_connected state'.
Proof.
  intros Hfresh Hrun. destruct action as [|id type data|id size|swipe|id|id|type];
    simpl in Hrun.
  - apply nextState_as_connected in Hrun as [Hc _]; [|done].
    unfold as_connected. by rewrite Hc.
  - rewrite clientAction_as_connected in Hrun by done.
    destruct (events_lookup type); [|done]. by injection Hrun as <- _.
  - injection Hrun as <- _. intros k c. simpl.
    rewrite lookup_insert. case_decide.
    + intros [= <-]. simpl. eauto.
    + apply Hfresh.
  - apply doSwipe_as_connected in Hrun; [|done].
    unfold as_connected. by rewrite Hrun.
  - unfold leaveCluster in Hrun.
    destruct (clients state !! id) as [client|] eqn:Hid.
    + destruct (Hfresh _ _ Hid) as (Hnil & _). rewrite Hnil in Hrun.
      by injection Hrun as <- _.
    + by injection Hrun as <- _.
  - unfold disconnect in Hrun.
    destruct (clients state !! id) as [client|] eqn:Hid.
    + injection Hrun as <- _. intros k c. simpl. unfold omit. simpl.
      rewrite lookup_delete_Some. intros [_ Hk]. by apply (Hfresh k).
    + by injection Hrun as <- _.
  - by injection Hrun as <- _.
Qed.

(** In the states the store can hold, every client is as [connect] stored
    it: no swipe merge ever got through. *)
Lemma reachable_as_connected (state : State Data) :
  reachable state → as_connected state.
Proof.
  induction 1 as [|state action w state' w' _ IH Hrun].
  - intros id client. simpl. by rewrite lookup_empty.
  - by eapply reducer_as_connected.
Qed.

Lemma as_connected_no_member (state : State Data) (cid : string) :
  as_connected state → getClientsInCluster (clients state) (ref cid) = [].
Proof.
  intros Hfresh.
  destruct (getClientsInCluster (clients state) (ref cid)) as [|client rest] eqn:Hm;
    [done|].
  assert (client ∈ getClientsInCluster (clients state) (ref cid)) as Hin
    by (rewrite Hm; left).
  apply getClientsInCluster_elem in Hin as (id & Hid & Hcid).
  destruct (Hfresh _ _ Hid) as (Hnil & _). congruence.
Qed.

(** C10. A client that sits in a state the store can hold was stored by
    [connect] and never merged: its [clusterId] is absent, the cluster id
    drawn for it is under [clusterID]; the tick computes no change for it
    and leaves it as it is; a client action with a registered type gives the
    state back; and a swipe match with it, whichever side it is on, goes to
    [createCluster], not to [joinCluster]. *)
Theorem connected_client_is_clusterless (state : State Data) (id : string)
  (client : Client) :
  reachable state →
  clients state !! id = Some client →
  Client.clusterId client = undefined
  ∧ is_Some (Client.clusterID client)
  ∧ hasCluster client = false
  ∧ (∀ next : ClientState.t Data → option Payload → Updates.t Data,
       getAllClientsChanges state next !! id = None)
  ∧ (∀ w state' w', nextState state w = Ok (state', w') →
       clients state' !! id = Some client)
  ∧ (∀ type data w, is_Some (client_events type) →
       clientAction state id type data w = Ok (state, w))
  ∧ (∀ swipeA swipeB partner w,
       clients state !! Swipe.id swipeB = Some partner →
       Swipe.id swipeA = id →
       clusterClients state swipeA swipeB w
       = createCluster state client swipeA partner swipeB w)
  ∧ (∀ swipeA swipeB partner w,
       clients state !! Swipe.id swipeA = Some partner →
       Swipe.id swipeB = id →
       clusterClients state swipeA swipeB w
       = createCluster state partner swipeA client swipeB w).
Proof.
  intros Hreach Hid. apply reachable_as_connected in Hreach as Hfresh.
  destruct (Hfresh _ _ Hid) as (Hnil & _ & HID).
  assert (∀ k c, clients state !! k = Some c → truthy (Client.clusterId c) = false)
    as Hfalsy.
  { intros k c Hk. by destruct (Hfresh _ _ Hk) as (-> & _). }
  repeat split; try done.
  - unfold hasCluster. by rewrite Hnil.
  - intros next. by rewrite as_connected_no_changes, lookup_empty.
  - intros w state' w' Hrun.
    apply nextState_as_connected in Hrun as [-> _]; done.
  - intros type data w [handler Hh].
    rewrite clientAction_as_connected by done.
    unfold events_lookup. by rewrite Hh.
  - intros swipeA swipeB partner w HB HA. unfold clusterClients.
    rewrite HA, Hid, HB. by rewrite (Hfalsy _ _ Hid), (Hfalsy _ _ HB).
  - intros swipeA swipeB partner w HA HB. unfold clusterClients.
    rewrite HB, Hid, HA. by rewrite (Hfalsy _ _ Hid), (Hfalsy _ _ HA).
Qed.

(** C4, as the code has it. After the first [connect], the store holds a
    cluster record that no client references through [clusterId]; and in
    every state the store can hold, no cluster at all has a member. *)
Theorem connect_leaves_memberless_cluster (id : string) (size : Size.t) (w : World) :
  ∃ state' w',
    reducer None (CONNECT id size) w = Ok (state', w')
    ∧ reachable state'
    ∧ is_Some (clusters state' !! uids (drawn w))
    ∧ getClientsInCluster (clients state') (ref (uids (drawn w))) = []
    ∧ (∀ state cid, reachable state →
                    getClientsInCluster (clients state) (ref cid) = []).
Proof.
  assert (∀ state cid, reachable state →
                       getClientsInCluster (clients state) (ref cid) = [])
    as Hnone.
  { intros state cid Hreach. apply as_connected_no_member.
    by apply reachable_as_connected. }
  do 2 eexists. split; [apply (connect_run initialState)|].
  split; [|split; [|split; [|exact Hnone]]].
  - eapply (reachable_step initialState (CONNECT id size) w);
      [apply reachable_initial | apply connect_run].
  - simpl. rewrite lookup_insert_eq. by eexists.
  - apply Hnone.
    eapply (reachable_step initialState (CONNECT id size) w);
      [apply reachable_initial | apply connect_run].
Qed.

(** *** The pairing scenario *)

(** C1, as the code has it. Two clients connect, the first swipes, the
    second swipes within 500 ms: the second swipe is matched with the first
    and goes to [createCluster], where [update] throws on the [$push] to
    [connections], a property [connect] never wrote. No state comes out. *)
Theorem pairing_scenario_throws (w : World) :
  clock (S (ticks w)) - clock (ticks w) < 500 →
  pairing_scenario w = Throw UpdateError.
Proof.
  intros Hsoon. unfold pairing_scenario.
  pose proof (connect_run initialState "1" (Size.mk 100 100) w) as H1.
  simpl in H1.
  set (s1 := mkState _ _ _) in H1. set (w1 := mkWorld _ _) in H1.
  rewrite (bind_Ok _ _ _ _ _ (H1 : reducer None (CONNECT _ _) w = _)).
  pose proof (connect_run s1 "2" (Size.mk 100 100) w1) as H2.
  simpl in H2.
  set (s2 := mkState _ _ _) in H2. set (w2 := mkWorld _ _) in H2.
  rewrite (bind_Ok _ _ _ _ _ (H2 : reducer (Some s1) (CONNECT _ _) w1 = _)).
  set (swipe1 := Swipe.mk "1" "RIGHT" (Point.mk 50 50) None).
  set (swipe2 := Swipe.mk "2" "LEFT" (Point.mk 50 50) None).
  pose proof (doSwipe_no_candidate s2 swipe1 w2 eq_refl) as H3.
  simpl in H3. rewrite Nat.add_0_r in H3.
  set (s3 := mkState _ _ _) in H3. set (w3 := mkWorld _ _) in H3.
  rewrite (bind_Ok _ _ _ _ _ (H3 : reducer (Some s2) (SWIPE _) w2 = _)).
  change (reducer (Some s3) (SWIPE swipe2)) with (doSwipe s3 swipe2).
  assert (as_connected s3) as Hfresh.
  { intros k c. simpl. rewrite !lookup_insert, lookup_empty.
    repeat case_decide; intros [= <-]; simpl; eauto. }
  rewrite (doSwipe_candidate s3 swipe2 (Swipe.set_timestamp (clock (ticks w)) swipe1) []).
  - apply bind_Throw. unfold clusterClients. simpl.
    rewrite lookup_insert_eq. simpl.
    rewrite lookup_insert_ne, lookup_insert_eq by done. simpl.
    by rewrite createCluster_as_connected.
  - simpl. unfold coincident. simpl.
    rewrite bool_decide_eq_true_2; [done|]. by unfold SWIPE_DELAY_TOLERANCE.
Qed.

(** *** Joining a cluster *)

Lemma updatePair_distinct (cs : gmap string Client) (keyA keyB : string)
  (specA specB : option Client → option Client) (a' b' : Client) (w : World) :
  keyA ≠ keyB →
  specA (cs !! keyA) = Some a' →
  specB (cs !! keyB) = Some b' →
  updatePair keyA specA keyB specB cs w
  = Ok (<[keyB := b']> (<[keyA := a']> cs), w).
Proof.
  intros Hne HA HB. unfold updatePair. rewrite decide_False by done.
  unfold updateAt. rewrite HA. simpl.
  unfold mbind, M_bind, mret, M_ret. simpl.
  by rewrite lookup_insert_ne, HB by done.
Qed.

Lemma joinCluster_run (state : State Data) (host joiner : Client)
  (hostSwipe joinerSwipe : Swipe.t) (lh lj : list string) (t : Point.t) (w : World) :
  clients state !! Client.id host = Some host →
  clients state !! Client.id joiner = Some joiner →
  Client.id host ≠ Client.id joiner →
  Client.connections host = Some lh →
  Client.connections joiner = Some lj →
  getTransform host hostSwipe joiner joinerSwipe w = Ok (t, w) →
  let cluster :=
    Merge.mk (OfRecord (clusters state !! toKey (Client.clusterId host)))
             (getClientsInCluster (clients state) (Client.clusterId host)
              ++ [joiner]) in
  let joined :=
    Client.mk (Client.id joiner) (Client.size joiner) t (Client.clusterId host)
              (Some (lj ++ [Swipe.id hostSwipe]))
              (Client.adjacentClientIDs joiner) (Client.clusterID joiner)
              (client_init (InitMerged cluster joiner)) in
  joinCluster state host hostSwipe (Some joiner) joinerSwipe w
  = Ok (mkState (clusters state)
                (<[Client.id joiner := joined]>
                   (<[Client.id host :=
                        Client.set_connections (lh ++ [Swipe.id joinerSwipe]) host]>
                      (clients state)))
                (swipes state), w).
Proof.
  intros Hh Hj Hne Hlh Hlj Ht cluster joined. unfold joinCluster.
  rewrite (bind_Ok _ _ _ _ _ Ht).
  erewrite bind_Ok; [reflexivity|].
  apply updatePair_distinct; [done| |].
  - rewrite Hh. unfold hostSpec, onTarget, push_connections. simpl.
    by rewrite Hlh.
  - rewrite Hj. unfold memberSpec, onTarget, push_connections. simpl.
    by rewrite Hlj.
Qed.

(** On two distinct clients that are in no cluster and carry a
    [connections] array, [createCluster] returns: both get the new cluster
    id and the other's swipe id, the second is placed by [getTransform]. *)
Lemma createCluster_run (state : State Data) (clientA clientB : Client)
  (swipeA swipeB : Swipe.t) (la lb : list string) (t : Point.t) (w : World) :
  clients state !! Client.id clientA = Some clientA →
  clients state !! Client.id clientB = Some clientB →
  Client.id clientA ≠ Client.id clientB →
  Client.connections clientA = Some la →
  Client.connections clientB = Some lb →
  getTransform clientA swipeA clientB swipeB w = Ok (t, w) →
  let clusterId := uids (drawn w) in
  let clusterData := cluster_init (InitMembers [clientA; clientB]) in
  let cluster := Merge.mk (OfPayload clusterData) [clientA; clientB] in
  let a' :=
    Client.mk (Client.id clientA) (Client.size clientA) (Client.transform clientA)
              (ref clusterId) (Some (la ++ [Swipe.id swipeB]))
              (Client.adjacentClientIDs clientA) (Client.clusterID clientA)
              (client_init (InitMerged cluster clientA)) in
  let b' :=
    Client.mk (Client.id clientB) (Client.size clientB) t
              (ref clusterId) (Some (lb ++ [Swipe.id swipeA]))
              (Client.adjacentClientIDs clientB) (Client.clusterID clientB)
              (client_init (InitMerged cluster clientB)) in
  createCluster state clientA swipeA clientB swipeB w
  = Ok (mkState (<[clusterId := Cluster.mk clusterId clusterData]> (clusters state))
                (<[Client.id clientB := b']>
                   (<[Client.id clientA := a']> (clients state)))
                (swipes state),
        mkWorld (ticks w) (S (drawn w))).
Proof.
  intros HA HB Hne Hla Hlb Ht clusterId clusterData cluster a' b'.
  unfold createCluster.
  set (w1 := mkWorld (ticks w) (S (drawn w))).
  rewrite (bind_Ok uid _ w (uids (drawn w)) w1 eq_refl).
  apply getTransform_world in Ht as [_ Ht]. specialize (Ht w1).
  rewrite (bind_Ok _ _ _ _ _ Ht).
  erewrite bind_Ok; [reflexivity|].
  apply updatePair_distinct; [done| |].
  - rewrite HA. unfold memberSpec, onTarget, push_connections. simpl.
    by rewrite Hla.
  - rewrite HB. unfold memberSpec, onTarget, push_connections. simpl.
    by rewrite Hlb.
Qed.

(** C5, as the code has it. When a swipe is matched and one of the two
    clients is in a cluster (the incoming swipe's client first, else the
    pending swipe's), the other client joins: no cluster record changes and
    the cluster-init hook is not called; the joining client gets the host's
    [clusterId], the data of the client-init hook called on the host's
    cluster record with the members and the joiner, and on the joiner, and
    the transform of [getTransform] relative to the host and the host's
    swipe; each of the two gets the other's swipe id appended to its
    [connections]; the queue is emptied. *)
Theorem join_merge (state : State Data) (swipeA swipeB : Swipe.t)
  (others : list Swipe.t) (a b host joiner : Client)
  (hostSwipe joinerSwipe : Swipe.t) (lh lj : list string) (t : Point.t)
  (w : World) :
  coincidentFrom (ticks w) (swipes state) = swipeB :: others →
  clients state !! Swipe.id swipeA = Some a →
  clients state !! Swipe.id swipeB = Some b →
  (truthy (Client.clusterId a) = true
   ∧ (host, hostSwipe, joiner, joinerSwipe) = (a, swipeA, b, swipeB))
  ∨ (truthy (Client.clusterId a) = false
     ∧ truthy (Client.clusterId b) = true
     ∧ (host, hostSwipe, joiner, joinerSwipe) = (b, swipeB, a, swipeA)) →
  Client.id host = Swipe.id hostSwipe →
  Client.id joiner = Swipe.id joinerSwipe →
  Swipe.id hostSwipe ≠ Swipe.id joinerSwipe →
  Client.connections host = Some lh →
  Client.connections joiner = Some lj →
  getTransform host hostSwipe joiner joinerSwipe w = Ok (t, w) →
  let cluster :=
    Merge.mk (OfRecord (clusters state !! toKey (Client.clusterId host)))
             (getClientsInCluster (clients state) (Client.clusterId host)
              ++ [joiner]) in
  let joined :=
    Client.mk (Client.id joiner) (Client.size joiner) t (Client.clusterId host)
              (Some (lj ++ [Swipe.id hostSwipe]))
              (Client.adjacentClientIDs joiner) (Client.clusterID joiner)
              (client_init (InitMerged cluster joiner)) in
  doSwipe state swipeA w
  = Ok (mkState (clusters state)
                (<[Client.id joiner := joined]>
                   (<[Client.id host :=
                        Client.set_connections (lh ++ [Swipe.id joinerSwipe]) host]>
                      (clients state)))
                [],
        mkWorld (ticks w + length (swipes state)) (drawn w)).
Proof.
  intros Hc HA HB Hcase Hhid Hjid Hne Hlh Hlj Ht cluster joined.
  rewrite (doSwipe_candidate _ _ _ _ _ Hc).
  set (w1 := mkWorld _ _).
  apply getTransform_world in Ht as [_ Ht]. specialize (Ht w1).
  assert (clusterClients state swipeA swipeB w1
          = Ok (mkState (clusters state)
                  (<[Client.id joiner := joined]>
                     (<[Client.id host :=
                          Client.set_connections (lh ++ [Swipe.id joinerSwipe]) host]>
                        (clients state)))
                  (swipes state), w1)) as Hmerge.
  { unfold clusterClients. rewrite HA, HB.
    destruct Hcase as [[Ha [= -> -> -> ->]] | (Ha & Hb & [= -> -> -> ->])].
    - rewrite Ha. apply joinCluster_run; try done; congruence.
    - rewrite Ha, Hb. apply joinCluster_run; try done; congruence. }
  by rewrite (bind_Ok _ _ _ _ _ Hmerge).
Qed.

End Properties.

(** ** Further properties of the reducer *)

Section Coverage.

Context {Data Payload : Type} {cfg : Config Data Payload} {plat : Platform}.

#[local] Abbreviation Client := (Client.t Data).
#[local] Abbreviation Cluster := (Cluster.t Data).

(** *** The tick *)

Lemma updateAll_Ok {R} (get : R → Data) (set : Data → R → R)
  (changes : gmap string (Data → option Data)) (objects objects' : gmap string R)
  (w w' : World) :
  updateAll get set changes objects w = Ok (objects', w') →
  w' = w
  ∧ (∀ k spec, changes !! k = Some spec →
               is_Some (patchData get set spec (objects !! k)))
  ∧ ∀ k, objects' !! k
         = match changes !! k with
           | Some spec => patchData get set spec (objects !! k)
           | None => objects !! k
           end.
Proof.
  unfold updateAll. case_decide as Hall; [|done].
  intros [= <- <-]. split; [done|]. split; [exact Hall|]. intros k.
  rewrite lookup_merge.
  destruct (changes !! k) as [spec|] eqn:Hk, (objects !! k) as [r|] eqn:Ho;
    simpl; try done.
Qed.

Lemma updateAll_Throw {R} (get : R → Data) (set : Data → R → R)
  (changes : gmap string (Data → option Data)) (objects : gmap string R)
  (w : World) (e : Error) :
  updateAll get set changes objects w = Throw e →
  e = UpdateError
  ∧ ∃ k spec, changes !! k = Some spec
              ∧ patchData get set spec (objects !! k) = None.
Proof.
  unfold updateAll. case_decide as Hall; [done|].
  intros [= <-]. split; [done|].
  apply map_not_Forall in Hall as (k & spec & Hk & Hno); [|apply _].
  exists k, spec. split; [done|].
  destruct (patchData get set spec (objects !! k)); [|done].
  destruct Hno. by eexists.
Qed.

Lemma updateAll_rejected {R} (get : R → Data) (set : Data → R → R)
  (changes : gmap string (Data → option Data)) (objects : gmap string R)
  (w : World) (k : string) (spec : Data → option Data) :
  changes !! k = Some spec →
  patchData get set spec (objects !! k) = None →
  updateAll get set changes objects w = Throw UpdateError.
Proof.
  intros Hk Hno. unfold updateAll. rewrite decide_False; [done|].
  intros Hall. specialize (Hall k spec Hk). simpl in Hall.
  rewrite Hno in Hall. by destruct Hall.
Qed.

Lemma getAllClientsChanges_lookup (state : State Data)
  (next : ClientState.t Data → option Payload → Updates.t Data) (k : string) :
  getAllClientsChanges state next !! k
  = match clients state !! k with
    | Some c => if hasCluster c then Some (getClientChanges state next c) else None
    | None => None
    end.
Proof.
  unfold getAllClientsChanges. rewrite lookup_fmap, map_lookup_filter.
  destruct (clients state !! k) as [c|]; simpl; [|done].
  destruct (hasCluster c); simpl; by rewrite ?option_guard_True, ?option_guard_False.
Qed.

(** A tick that returns: what is stored under each key afterwards. *)
Lemma nextState_Ok (state state' : State Data) (w w' : World) :
  nextState state w = Ok (state', w') →
  w' = w
  ∧ swipes state' = swipes state
  ∧ (∀ k, clusters state' !! k
          = match cluster_events_update with
            | Some next =>
                c ← clusters state !! k;
                d ← Updates.data (next (getClusterState state (Cluster.id c)))
                                 (Cluster.data c);
                Some (Cluster.set_data d c)
            | None => clusters state !! k
            end)
  ∧ (∀ k, clients state' !! k
          = match client_events "update" with
            | Some next =>
                c ← clients state !! k;
                if hasCluster c then
                  d ← Updates.data (next (getClientState state (Client.id c)) None)
                                   (Client.data c);
                  Some (Client.set_data d c)
                else Some c
            | None => clients state !! k
            end)
  ∧ (∀ k c, clusters state !! k = Some c → is_Some (clusters state' !! k))
  ∧ (∀ k c, clients state !! k = Some c → is_Some (clients state' !! k)).
Proof.
  intros Hrun. unfold nextState in Hrun.
  apply bind_inv in Hrun as (clusters' & w1 & Hclusters & Hrun).
  apply bind_inv in Hrun as (clients' & w2 & Hclients & Hret).
  apply ret_inv in Hret as [<- <-]. simpl.
  assert (∀ k c, clusters state !! k = Some c → is_Some (clusters' !! k)) as Hkeep1.
  { intros k c Hk. destruct cluster_events_update as [next|] eqn:Hhook.
    - apply updateAll_Ok in Hclusters as (_ & Hall & Hlook).
      specialize (Hall k (getClusterChanges state next c)).
      rewrite Hlook. unfold getAllClustersChanges in *.
      rewrite lookup_fmap, Hk in *. simpl in *. by apply Hall.
    - apply ret_inv in Hclusters as [<- _]. by eexists. }
  assert (∀ k c, clients state !! k = Some c → is_Some (clients' !! k)) as Hkeep2.
  { intros k c Hk. destruct (client_events "update") as [next|] eqn:Hhook.
    - apply updateAll_Ok in Hclients as (_ & Hall & Hlook).
      specialize (Hall k). rewrite Hlook.
      rewrite getAllClientsChanges_lookup, Hk in *.
      destruct (hasCluster c); [by apply Hall|]. by eexists.
    - apply ret_inv in Hclients as [<- _]. by eexists. }
  assert (w1 = w ∧ ∀ k, clusters' !! k
            = match cluster_events_update with
              | Some next =>
                  c ← clusters state !! k;
                  d ← Updates.data (next (getClusterState state (Cluster.id c)))
                                   (Cluster.data c);
                  Some (Cluster.set_data d c)
              | None => clusters state !! k
              end) as [-> Hcl].
  { destruct cluster_events_update as [next|].
    - apply updateAll_Ok in Hclusters as (-> & _ & Hk). split; [done|]. intros k.
      rewrite Hk. unfold getAllClustersChanges. rewrite lookup_fmap.
      destruct (clusters state !! k) as [c|]; done.
    - by apply ret_inv in Hclusters as [<- <-]. }
  assert (w2 = w ∧ ∀ k, clients' !! k
            = match client_events "update" with
              | Some next =>
                  c ← clients state !! k;
                  if hasCluster c then
                    d ← Updates.data (next (getClientState state (Client.id c)) None)
                                     (Client.data c);
                    Some (Client.set_data d c)
                  else Some c
              | None => clients state !! k
              end) as [-> Hc].
  { destruct (client_events "update") as [next|].
    - apply updateAll_Ok in Hclients as (-> & _ & Hk). split; [done|]. intros k.
      rewrite Hk, getAllClientsChanges_lookup.
      destruct (clients state !! k) as [c|]; [|done]. simpl.
      destruct (hasCluster c); done.
    - by apply ret_inv in Hclients as [<- <-]. }
  done.
Qed.

(** X1. A tick that returns adds and removes nothing and reads neither
    the clock nor [uid()]: the queue is as before; every cluster keeps its
    record with the [data] patched by the spec that the cluster hook
    returned for its view of the state before the tick; every client that
    has a cluster is patched likewise by the hook ["update"]; a client
    without a cluster is not touched; a hook that is not configured
    changes nothing. *)
Theorem nextState_effect (state state' : State Data) (w w' : World) :
  nextState state w = Ok (state', w') →
  w' = w
  ∧ swipes state' = swipes state
  ∧ (∀ k, Cluster.id <$> clusters state' !! k = Cluster.id <$> clusters state !! k)
  ∧ (∀ k, Client.id <$> clients state' !! k = Client.id <$> clients state !! k)
  ∧ (∀ next k c, cluster_events_update = Some next →
       clusters state !! k = Some c →
       ∃ d, Updates.data (next (getClusterState state (Cluster.id c)))
                         (Cluster.data c) = Some d
            ∧ clusters state' !! k = Some (Cluster.set_data d c))
  ∧ (∀ next k c, client_events "update" = Some next →
       clients state !! k = Some c →
       hasCluster c = true →
       ∃ d, Updates.data (next (getClientState state (Client.id c)) None)
                         (Client.data c) = Some d
            ∧ clients state' !! k = Some (Client.set_data d c))
  ∧ (∀ k c, clients state !! k = Some c → hasCluster c = false →
       clients state' !! k = Some c)
  ∧ (cluster_events_update = None → clusters state' = clusters state)
  ∧ (client_events "update" = None → clients state' = clients state).
Proof.
  intros Hrun.
  apply nextState_Ok in Hrun as (-> & Hsw & Hcl & Hc & Hkeep1 & Hkeep2).
  repeat split; try done.
  - intros k. destruct (clusters state !! k) as [c|] eqn:Hk.
    + destruct (Hkeep1 k c Hk) as [c' Hc']. rewrite Hc'.
      rewrite Hcl, Hk in Hc'. destruct cluster_events_update as [next|].
      * simpl in Hc'. destruct (Updates.data _ _) as [d|]; simpl in Hc';
          [by injection Hc' as <-|done].
      * by injection Hc' as <-.
    + rewrite Hcl, Hk. by destruct cluster_events_update.
  - intros k. destruct (clients state !! k) as [c|] eqn:Hk.
    + destruct (Hkeep2 k c Hk) as [c' Hc']. rewrite Hc'.
      rewrite Hc, Hk in Hc'. destruct (client_events "update") as [next|].
      * simpl in Hc'. destruct (hasCluster c); [|by injection Hc' as <-].
        destruct (Updates.data _ _) as [d|]; simpl in Hc';
          [by injection Hc' as <-|done].
      * by injection Hc' as <-.
    + rewrite Hc, Hk. by destruct (client_events "update").
  - intros next k c Hhook Hk. destruct (Hkeep1 k c Hk) as [c' Hc'].
    rewrite Hc'. rewrite Hcl, Hhook, Hk in Hc'. simpl in Hc'.
    destruct (Updates.data _ _) as [d|]; [|done]. exists d.
    simpl in Hc'. by injection Hc' as <-.
  - intros next k c Hhook Hk Hhas. destruct (Hkeep2 k c Hk) as [c' Hc'].
    rewrite Hc'. rewrite Hc, Hhook, Hk in Hc'. simpl in Hc'. rewrite Hhas in Hc'.
    destruct (Updates.data _ _) as [d|]; [|done]. exists d.
    simpl in Hc'. by injection Hc' as <-.
  - intros k c Hk Hhas. rewrite Hc, Hk. simpl. rewrite Hhas.
    by destruct (client_events "update").
  - intros Hhook. apply map_eq. intros k. by rewrite Hcl, Hhook.
  - intros Hhook. apply map_eq. intros k. by rewrite Hc, Hhook.
Qed.

(** X2. The tick is all or nothing: it throws, and only the error of
    [update()], as soon as one cluster's or one clustered client's spec is
    rejected; and when it throws, some spec was rejected. *)
Theorem nextState_failure (state : State Data) (w : World) :
  (∀ next k c, cluster_events_update = Some next →
     clusters state !! k = Some c →
     Updates.data (next (getClusterState state (Cluster.id c))) (Cluster.data c)
     = None →
     nextState state w = Throw UpdateError)
  ∧ (∀ next k c, client_events "update" = Some next →
       clients state !! k = Some c → hasCluster c = true →
       Updates.data (next (getClientState state (Client.id c)) None) (Client.data c)
       = None →
       nextState state w = Throw UpdateError)
  ∧ (∀ e, nextState state w = Throw e →
       e = UpdateError
       ∧ ((∃ next k c, cluster_events_update = Some next
                       ∧ clusters state !! k = Some c
                       ∧ Updates.data (next (getClusterState state (Cluster.id c)))
                                      (Cluster.data c) = None)
          ∨ (∃ next k c, client_events "update" = Some next
                         ∧ clients state !! k = Some c
                         ∧ hasCluster c = true
                         ∧ Updates.data (next (getClientState state (Client.id c)) None)
                                        (Client.data c) = None))).
Proof.
  split; [|split].
  - intros next k c Hhook Hk Hno. unfold nextState. rewrite Hhook.
    apply bind_Throw.
    apply (updateAll_rejected _ _ _ _ _ k (getClusterChanges state next c)).
    + unfold getAllClustersChanges. by rewrite lookup_fmap, Hk.
    + rewrite Hk. unfold patchData, getClusterChanges. simpl. by rewrite Hno.
  - intros next k c Hhook Hk Hhas Hno. unfold nextState. rewrite Hhook.
    assert (updateAll Client.data Client.set_data
              (getAllClientsChanges state next) (clients state) w
            = Throw UpdateError) as Hthrow.
    { apply (updateAll_rejected _ _ _ _ _ k (getClientChanges state next c)).
      - by rewrite getAllClientsChanges_lookup, Hk, Hhas.
      - rewrite Hk. unfold patchData, getClientChanges. simpl. by rewrite Hno. }
    destruct cluster_events_update as [cnext|].
    + destruct (updateAll Cluster.data Cluster.set_data
                  (getAllClustersChanges state cnext) (clusters state) w)
        as [[cl w1]|e] eqn:Hcl.
      * apply updateAll_Ok in Hcl as Hw. destruct Hw as (-> & _).
        rewrite (bind_Ok _ _ _ _ _ Hcl). by apply bind_Throw.
      * apply updateAll_Throw in Hcl as Herr. destruct Herr as [-> _].
        by apply bind_Throw.
    + simpl. unfold mbind at 1, M_bind at 1. simpl. by apply bind_Throw.
  - intros e Hrun. unfold nextState in Hrun.
    destruct cluster_events_update as [cnext|] eqn:Hch.
    + destruct (updateAll Cluster.data Cluster.set_data
                  (getAllClustersChanges state cnext) (clusters state) w)
        as [[cl w1]|e1] eqn:Hcl.
      * apply updateAll_Ok in Hcl as Hw. destruct Hw as (-> & _).
        rewrite (bind_Ok _ _ _ _ _ Hcl) in Hrun.
        destruct (client_events "update") as [next|] eqn:Hh; [|done].
        destruct (updateAll Client.data Client.set_data
                    (getAllClientsChanges state next) (clients state) w)
          as [[c2 w2]|e2] eqn:Hc2.
        { by rewrite (bind_Ok _ _ _ _ _ Hc2) in Hrun. }
        rewrite (bind_Throw _ _ _ _ Hc2) in Hrun. injection Hrun as <-.
        apply updateAll_Throw in Hc2 as (-> & k & spec & Hk & Hno).
        split; [done|]. right.
        rewrite getAllClientsChanges_lookup in Hk.
        destruct (clients state !! k) as [c|] eqn:Hc; [|done].
        destruct (hasCluster c) eqn:Hhas; [|done]. injection Hk as <-.
        exists next, k, c. repeat split; try done.
        unfold patchData, getClientChanges in Hno. simpl in Hno.
        by destruct (Updates.data _ _).
      * rewrite (bind_Throw _ _ _ _ Hcl) in Hrun. injection Hrun as <-.
        apply updateAll_Throw in Hcl as (-> & k & spec & Hk & Hno).
        split; [done|]. left.
        unfold getAllClustersChanges in Hk. rewrite lookup_fmap in Hk.
        destruct (clusters state !! k) as [c|] eqn:Hc; [|done].
        injection Hk as <-. exists cnext, k, c. repeat split; try done.
        unfold patchData, getClusterChanges in Hno. simpl in Hno.
        by destruct (Updates.data _ _).
    + unfold mbind at 1, M_bind at 1 in Hrun. simpl in Hrun.
      destruct (client_events "update") as [next|] eqn:Hh; [|done].
      destruct (updateAll Client.data Client.set_data
                  (getAllClientsChanges state next) (clients state) w)
        as [[c2 w2]|e2] eqn:Hc2.
      { by rewrite (bind_Ok _ _ _ _ _ Hc2) in Hrun. }
      rewrite (bind_Throw _ _ _ _ Hc2) in Hrun. injection Hrun as <-.
      apply updateAll_Throw in Hc2 as (-> & k & spec & Hk & Hno).
      split; [done|]. right.
      rewrite getAllClientsChanges_lookup in Hk.
      destruct (clients state !! k) as [c|] eqn:Hc; [|done].
      destruct (hasCluster c) eqn:Hhas; [|done]. injection Hk as <-.
      exists next, k, c. repeat split; try done.
      unfold patchData, getClientChanges in Hno. simpl in Hno.
      by destruct (Updates.data _ _).
Qed.


(** *** Client events *)

Lemma updateAt_Ok {R} (key : string) (spec : option R → option R)
  (objects objects' : gmap string R) (w w' : World) :
  updateAt key spec objects w = Ok (objects', w') →
  w' = w ∧ ∃ v, spec (objects !! key) = Some v ∧ objects' = <[key := v]> objects.
Proof.
  unfold updateAt. destruct (spec (objects !! key)) as [v|]; [|done].
  intros [= <- <-]. eauto.
Qed.

Lemma updateAt_Throw {R} (key : string) (spec : option R → option R)
  (objects : gmap string R) (w : World) (e : Error) :
  updateAt key spec objects w = Throw e →
  e = UpdateError ∧ spec (objects !! key) = None.
Proof.
  unfold updateAt. destruct (spec (objects !! key)) as [v|]; [done|].
  by intros [= <-].
Qed.

(** X3. A client event of a client that is in a cluster, with the handler
    registered for its type: the handler gets the view of the client whose
    id is in the stored record and the payload; if the action returns, the
    clock and [uid()] were not read, the queue is as before, the record
    under the client's [clusterId] is what the handler's cluster spec made
    of it and the record under the client's own [id] what the client spec
    made of it (each untouched when its spec is missing), and no other
    cluster or client changed; if it throws, it throws the error of
    [update()] and one of the two specs was rejected. *)
Theorem clientAction_effect (state : State Data) (id type : string) (data : Payload)
  (handler : ClientState.t Data → option Payload → Updates.t Data)
  (client : Client) (w : World) :
  client_events type = Some handler →
  clients state !! id = Some client →
  truthy (Client.clusterId client) = true →
  let updates := handler (getClientState state (Client.id client)) (Some data) in
  let key := toKey (Client.clusterId client) in
  (∀ state' w', clientAction state id type data w = Ok (state', w') →
     w' = w
     ∧ swipes state' = swipes state
     ∧ clusters state' !! key
       = match Updates.cluster updates with
         | Some spec => spec (clusters state !! key)
         | None => clusters state !! key
         end
     ∧ clients state' !! Client.id client
       = match Updates.client updates with
         | Some spec => spec (clients state !! Client.id client)
         | None => clients state !! Client.id client
         end
     ∧ (∀ k, k ≠ key → clusters state' !! k = clusters state !! k)
     ∧ (∀ k, k ≠ Client.id client → clients state' !! k = clients state !! k))
  ∧ (∀ e, clientAction state id type data w = Throw e →
       e = UpdateError
       ∧ ((∃ spec, Updates.cluster updates = Some spec
                   ∧ spec (clusters state !! key) = None)
          ∨ (∃ spec, Updates.client updates = Some spec
                     ∧ spec (clients state !! Client.id client) = None))).
Proof.
  intros Hh Hid Htruthy updates key.
  rewrite (clientAction_registered _ _ _ _ _ _ Hh).
  rewrite Hid, Htruthy. simpl. fold updates. fold key.
  destruct (Updates.cluster updates) as [cspec|] eqn:Hcs;
    destruct (Updates.client updates) as [kspec|] eqn:Hks.
  - split.
    + intros state' w' Hrun.
      apply bind_inv in Hrun as (cl & w1 & Hcl & Hrun).
      apply bind_inv in Hrun as (cs & w2 & Hc & Hret).
      apply ret_inv in Hret as [<- <-]. simpl.
      apply updateAt_Ok in Hcl as (-> & v1 & Hv1 & ->).
      apply updateAt_Ok in Hc as (-> & v2 & Hv2 & ->).
      rewrite !lookup_insert_eq. repeat split; try done.
      * intros k Hk. by rewrite lookup_insert_ne.
      * intros k Hk. by rewrite lookup_insert_ne.
    + intros e Hrun.
      destruct (updateAt key cspec (clusters state) w) as [[cl w1]|e1] eqn:Hcl.
      * rewrite (bind_Ok _ _ _ _ _ Hcl) in Hrun.
        destruct (updateAt (Client.id client) kspec (clients state) w1)
          as [[cs w2]|e2] eqn:Hc.
        { by rewrite (bind_Ok _ _ _ _ _ Hc) in Hrun. }
        rewrite (bind_Throw _ _ _ _ Hc) in Hrun. injection Hrun as <-.
        apply updateAt_Throw in Hc as [-> Hno]. split; [done|]. right. eauto.
      * rewrite (bind_Throw _ _ _ _ Hcl) in Hrun. injection Hrun as <-.
        apply updateAt_Throw in Hcl as [-> Hno]. split; [done|]. left. eauto.
  - split.
    + intros state' w' Hrun.
      apply bind_inv in Hrun as (cl & w1 & Hcl & Hrun).
      apply bind_inv in Hrun as (cs & w2 & Hc & Hret).
      apply ret_inv in Hret as [<- <-]. apply ret_inv in Hc as [<- <-]. simpl.
      apply updateAt_Ok in Hcl as (-> & v1 & Hv1 & ->).
      rewrite !lookup_insert_eq. repeat split; try done.
      intros k Hk. by rewrite lookup_insert_ne.
    + intros e Hrun.
      destruct (updateAt key cspec (clusters state) w) as [[cl w1]|e1] eqn:Hcl.
      * by rewrite (bind_Ok _ _ _ _ _ Hcl) in Hrun.
      * rewrite (bind_Throw _ _ _ _ Hcl) in Hrun. injection Hrun as <-.
        apply updateAt_Throw in Hcl as [-> Hno]. split; [done|]. left. eauto.
  - split.
    + intros state' w' Hrun.
      apply bind_inv in Hrun as (cl & w1 & Hcl & Hrun).
      apply bind_inv in Hrun as (cs & w2 & Hc & Hret).
      apply ret_inv in Hret as [<- <-]. apply ret_inv in Hcl as [<- <-]. simpl.
      apply updateAt_Ok in Hc as (-> & v2 & Hv2 & ->).
      rewrite !lookup_insert_eq. repeat split; try done.
      intros k Hk. by rewrite lookup_insert_ne.
    + intros e Hrun.
      unfold mbind at 1, M_bind at 1 in Hrun. simpl in Hrun.
      destruct (updateAt (Client.id client) kspec (clients state) w)
        as [[cs w2]|e2] eqn:Hc.
      * by rewrite (bind_Ok _ _ _ _ _ Hc) in Hrun.
      * rewrite (bind_Throw _ _ _ _ Hc) in Hrun. injection Hrun as <-.
        apply updateAt_Throw in Hc as [-> Hno]. split; [done|]. right. eauto.
  - split; [|done].
    intros state' w' [= <- <-]. done.
Qed.

(** *** Departures *)

Lemma removeEmptyCluster_lookup (cls : gmap string Cluster)
  (cs : gmap string Client) (clusterId : JsRef) (k : string) :
  k ≠ toKey clusterId →
  removeEmptyCluster cls cs clusterId !! k = cls !! k.
Proof.
  intros Hk. unfold removeEmptyCluster, omit.
  case_bool_decide; [done|]. by rewrite lookup_delete_ne.
Qed.

Lemma leaveCluster_run (state : State Data) (id : string) (w : World) :
  leaveCluster state id w
  = Ok (match clients state !! id with
        | Some client =>
            if isNil (Client.clusterId client) then state
            else mkState (removeEmptyCluster (clusters state) (clients state)
                                             (Client.clusterId client))
                         (<[id := Client.set_clusterId null client]> (clients state))
                         (swipes state)
        | None => state
        end, w).
Proof.
  unfold leaveCluster. destruct (clients state !! id) as [client|] eqn:Hid; [|done].
  destruct (isNil (Client.clusterId client)); [done|].
  unfold updateAt, onTarget. by rewrite Hid.
Qed.

Lemma disconnect_run (state : State Data) (id : string) (w : World) :
  disconnect state id w
  = Ok (match clients state !! id with
        | Some client =>
            mkState (removeEmptyCluster (clusters state) (clients state)
                                        (Client.clusterId client))
                    (delete id (clients state)) (swipes state)
        | None => state
        end, w).
Proof.
  unfold disconnect. by destruct (clients state !! id).
Qed.

(** X4. [leaveCluster] and [disconnect] never throw and read neither the
    clock nor [uid()]. They leave the queue and every other client as they
    were; [leaveCluster] keeps the client's record, with nothing changed
    but [clusterId], and [disconnect] removes it. When the client's
    [clusterId] is one that [_.omit] reads as a property name (it is nil,
    or the id of a stored cluster, or free of dots and brackets), every
    cluster but the one it names is as it was. An unknown client, and for
    [leaveCluster] a client that is in no cluster, gives the state back. *)
Theorem departure_frame (state : State Data) (id : string) (w : World) :
  (∃ state',
     leaveCluster state id w = Ok (state', w)
     ∧ swipes state' = swipes state
     ∧ (∀ k, k ≠ id → clients state' !! k = clients state !! k)
     ∧ (∀ c, clients state !! id = Some c →
          clients state' !! id
          = Some (if isNil (Client.clusterId c) then c
                  else Client.set_clusterId null c)
          ∧ (readAsKey (clusters state) (Client.clusterId c) = true →
             ∀ k, k ≠ toKey (Client.clusterId c) →
               clusters state' !! k = clusters state !! k)
          ∧ (isNil (Client.clusterId c) = true → state' = state))
     ∧ (clients state !! id = None → state' = state))
  ∧ (∃ state',
       disconnect state id w = Ok (state', w)
       ∧ swipes state' = swipes state
       ∧ clients state' = delete id (clients state)
       ∧ (∀ c, clients state !! id = Some c →
            readAsKey (clusters state) (Client.clusterId c) = true →
            ∀ k, k ≠ toKey (Client.clusterId c) →
              clusters state' !! k = clusters state !! k)
       ∧ (clients state !! id = None → state' = state)).
Proof.
  split.
  - eexists. split; [apply leaveCluster_run|].
    destruct (clients state !! id) as [c|] eqn:Hid.
    + destruct (isNil (Client.clusterId c)) eqn:Hnil.
      * split; [done|]. split; [done|]. split; [|done].
        intros c' [= <-]. by rewrite Hnil, Hid.
      * simpl. split; [done|]. split; [|split; [|done]].
        -- intros k Hk. by rewrite lookup_insert_ne.
        -- intros c' [= <-]. rewrite Hnil, lookup_insert_eq.
           split; [done|]. split; [|done].
           intros _ k Hk. by apply removeEmptyCluster_lookup.
    + split; [done|]. split; [done|]. split; done.
  - eexists. split; [apply disconnect_run|].
    destruct (clients state !! id) as [c|] eqn:Hid.
    + simpl. split; [done|]. split; [done|]. split; [|done].
      intros c' [= <-] _ k Hk. by apply removeEmptyCluster_lookup.
    + split; [done|]. split; [symmetry; by apply delete_id|]. split; done.
Qed.

(** X5. Leaving twice is leaving once, and disconnecting twice is
    disconnecting once: on the state that [leaveCluster] or [disconnect]
    returned, the same action for the same client gives that state back. *)
Theorem departure_idempotent (state state' : State Data) (id : string) (w w' : World) :
  (leaveCluster state id w = Ok (state', w') →
     leaveCluster state' id w' = Ok (state', w'))
  ∧ (disconnect state id w = Ok (state', w') →
       disconnect state' id w' = Ok (state', w')).
Proof.
  split; intros Hrun.
  - rewrite leaveCluster_run in Hrun. injection Hrun as <- <-.
    rewrite leaveCluster_run. do 2 f_equal.
    destruct (clients state !! id) as [c|] eqn:Hid.
    + destruct (isNil (Client.clusterId c)) eqn:Hnil.
      * by rewrite Hid, Hnil.
      * simpl. by rewrite lookup_insert_eq.
    + by rewrite Hid.
  - rewrite disconnect_run in Hrun. injection Hrun as <- <-.
    rewrite disconnect_run. do 2 f_equal.
    destruct (clients state !! id) as [c|] eqn:Hid.
    + simpl. by rewrite lookup_delete_eq.
    + by rewrite Hid.
Qed.

(** *** Connecting *)



(** *** Swipes: which entry is matched *)

Lemma coincidentFrom_app (k : nat) (l1 l2 : list Swipe.t) :
  coincidentFrom k (l1 ++ l2)
  = coincidentFrom k l1 ++ coincidentFrom (k + length l1) l2.
Proof.
  revert k. induction l1 as [|s l1 IH]; intros k; simpl.
  - by rewrite Nat.add_0_r.
  - rewrite IH. replace (S k + length l1)%nat with (k + S (length l1))%nat by lia.
    by destruct (coincident (clock k) s).
Qed.

Lemma coincidentFrom_sublist (k : nat) (queue : list Swipe.t) :
  coincidentFrom k queue `sublist_of` queue.
Proof.
  revert k. induction queue as [|s queue IH]; intros k; simpl; [done|].
  destruct (coincident (clock k) s).
  - by apply sublist_skip.
  - by apply sublist_cons.
Qed.

Lemma coincidentFrom_elem (k : nat) (queue : list Swipe.t) (s : Swipe.t) :
  s ∈ coincidentFrom k queue →
  ∃ i t, queue !! i = Some s ∧ Swipe.timestamp s = Some t
         ∧ clock (k + i) - t < SWIPE_DELAY_TOLERANCE.
Proof.
  revert k. induction queue as [|s0 queue IH]; intros k; simpl.
  - by intros ?%elem_of_nil.
  - destruct (coincident (clock k) s0) eqn:Hco.
    + intros [->|Hin]%elem_of_cons.
      * unfold coincident in Hco.
        destruct (Swipe.timestamp s0) as [t|] eqn:Ht; [|done].
        apply bool_decide_eq_true_1 in Hco.
        exists 0%nat, t. by rewrite Nat.add_0_r.
      * apply IH in Hin as (i & t & Hi & Ht & Hlt).
        exists (S i), t. by replace (k + S i)%nat with (S k + i)%nat by lia.
    + intros Hin. apply IH in Hin as (i & t & Hi & Ht & Hlt).
      exists (S i), t. by replace (k + S i)%nat with (S k + i)%nat by lia.
Qed.

(** X8. [getCoincidentSwipes] never throws and reads the clock once per
    queue entry, nothing else. What it returns is a sublist of the queue, in
    queue order, and each entry it returns carries a timestamp that was less
    than 500 ms old at the reading made for that entry. When all the
    readings give the same time, it returns exactly the entries less than
    500 ms old at that time. *)
Theorem getCoincidentSwipes_filter (queue : list Swipe.t) (w : World) :
  ∃ kept,
    getCoincidentSwipes queue w
    = Ok (kept, mkWorld (ticks w + length queue) (drawn w))
    ∧ kept `sublist_of` queue
    ∧ (∀ s, s ∈ kept →
         ∃ i t, queue !! i = Some s ∧ Swipe.timestamp s = Some t
                ∧ clock (ticks w + i) - t < 500)
    ∧ (∀ now, (∀ i, (i < length queue)%nat → clock (ticks w + i) = now) →
         kept = filter (λ s, coincident now s = true) queue).
Proof.
  exists (coincidentFrom (ticks w) queue).
  split; [apply getCoincidentSwipes_run|].
  split; [apply coincidentFrom_sublist|].
  split; [apply coincidentFrom_elem|].
  intros now. generalize (ticks w). induction queue as [|s queue IH]; intros k Hnow;
    [done|].
  simpl. rewrite filter_cons.
  rewrite <- (Hnow 0%nat) by (simpl; lia). rewrite Nat.add_0_r.
  rewrite (IH (S k)).
  - rewrite <- (Hnow 0%nat) by (simpl; lia). rewrite Nat.add_0_r.
    destruct (coincident (clock k) s) eqn:Hco.
    + by rewrite decide_True.
    + by rewrite decide_False.
  - intros i Hi. replace (S k + i)%nat with (k + S i)%nat by lia.
    apply Hnow. simpl. lia.
Qed.

(** X9. The partner of a swipe is the first queue entry that is within
    the window at its own reading of the clock: the entries before it that
    are outside the window are passed over, the entries after it are not
    considered, and the outcome of the action is the outcome of the merge
    with that entry, with the queue emptied: on success every other queue
    entry is discarded unmatched. *)
Theorem doSwipe_first_candidate (state : State Data) (swipe partner : Swipe.t)
  (before after : list Swipe.t) (w : World) :
  swipes state = before ++ partner :: after →
  (∀ i s, before !! i = Some s → coincident (clock (ticks w + i)) s = false) →
  coincident (clock (ticks w + length before)) partner = true →
  doSwipe state swipe w
  = (merged ← clusterClients state swipe partner;
     mret (mkState (clusters merged) (clients merged) []))
      (mkWorld (ticks w + length (swipes state)) (drawn w)).
Proof.
  intros Hqueue Hbefore Hpartner.
  apply (doSwipe_candidate state swipe partner
           (coincidentFrom (ticks w + S (length before)) after)).
  rewrite Hqueue, coincidentFrom_app, (coincidentFrom_stale before) by done.
  simpl. rewrite Hpartner. do 2 f_equal. lia.
Qed.

(** *** Swipes: the merge *)

(** X10. When a swipe is matched and neither client is in a cluster, a
    cluster is created under a drawn id with the data of the cluster-init
    hook on the two clients; both clients get that id as [clusterId], the
    data of the client-init hook and the other's swipe id appended to
    [connections]; the client of the pending swipe is placed by
    [getTransform] relative to the client of the incoming swipe, which
    stays where it is; every other client and cluster is untouched and the
    queue is emptied. This needs both clients stored under their own ids,
    distinct, with a [connections] array, and a valid direction of the
    incoming swipe. *)
Theorem create_merge (state : State Data) (swipeA swipeB : Swipe.t)
  (others : list Swipe.t) (a b : Client) (la lb : list string) (t : Point.t)
  (w : World) :
  coincidentFrom (ticks w) (swipes state) = swipeB :: others →
  clients state !! Swipe.id swipeA = Some a →
  clients state !! Swipe.id swipeB = Some b →
  truthy (Client.clusterId a) = false →
  truthy (Client.clusterId b) = false →
  Client.id a = Swipe.id swipeA →
  Client.id b = Swipe.id swipeB →
  Swipe.id swipeA ≠ Swipe.id swipeB →
  Client.connections a = Some la →
  Client.connections b = Some lb →
  getTransform a swipeA b swipeB w = Ok (t, w) →
  let clusterId := uids (drawn w) in
  let clusterData := cluster_init (InitMembers [a; b]) in
  let cluster := Merge.mk (OfPayload clusterData) [a; b] in
  let a' :=
    Client.mk (Client.id a) (Client.size a) (Client.transform a)
              (ref clusterId) (Some (la ++ [Swipe.id swipeB]))
              (Client.adjacentClientIDs a) (Client.clusterID a)
              (client_init (InitMerged cluster a)) in
  let b' :=
    Client.mk (Client.id b) (Client.size b) t
              (ref clusterId) (Some (lb ++ [Swipe.id swipeA]))
              (Client.adjacentClientIDs b) (Client.clusterID b)
              (client_init (InitMerged cluster b)) in
  doSwipe state swipeA w
  = Ok (mkState (<[clusterId := Cluster.mk clusterId clusterData]> (clusters state))
                (<[Client.id b := b']> (<[Client.id a := a']> (clients state)))
                [],
        mkWorld (ticks w + length (swipes state)) (S (drawn w))).
Proof.
  intros Hc HA HB Ha Hb Haid Hbid Hne Hla Hlb Ht clusterId clusterData cluster a' b'.
  rewrite (doSwipe_candidate _ _ _ _ _ Hc).
  set (w1 := mkWorld (ticks w + length (swipes state)) (drawn w)).
  apply getTransform_world in Ht as [_ Ht].
  assert (clusterClients state swipeA swipeB w1
          = Ok (mkState
                  (<[clusterId := Cluster.mk clusterId clusterData]> (clusters state))
                  (<[Client.id b := b']> (<[Client.id a := a']> (clients state)))
                  (swipes state),
                mkWorld (ticks w1) (S (drawn w1)))) as Hmerge.
  { unfold clusterClients. rewrite HA, HB, Ha, Hb.
    apply (createCluster_run state a b swipeA swipeB la lb t w1);
      try done; congruence. }
  by rewrite (bind_Ok _ _ _ _ _ Hmerge).
Qed.

(** X11. Nothing tells a client from itself: when a client's swipe is
    matched with its own pending swipe, the second spec of the merge is the
    only one applied. A client in no cluster ends up alone in a new
    cluster built from the pair (itself, itself); a client in a cluster
    stays in it. In both cases its data is recomputed, its own id is
    appended to its [connections], and it is moved to where [getTransform]
    places it relative to itself. *)
Theorem self_match (state : State Data) (swipeA swipeB : Swipe.t)
  (others : list Swipe.t) (c : Client) (l : list string) (t : Point.t) (w : World) :
  coincidentFrom (ticks w) (swipes state) = swipeB :: others →
  Swipe.id swipeB = Swipe.id swipeA →
  clients state !! Swipe.id swipeA = Some c →
  Client.id c = Swipe.id swipeA →
  Client.connections c = Some l →
  getTransform c swipeA c swipeB w = Ok (t, w) →
  let w1 := mkWorld (ticks w + length (swipes state)) (drawn w) in
  let moved (clusterId : JsRef) (data : Data) :=
    Client.mk (Client.id c) (Client.size c) t clusterId
              (Some (l ++ [Swipe.id swipeA]))
              (Client.adjacentClientIDs c) (Client.clusterID c) data in
  (truthy (Client.clusterId c) = false →
     let clusterId := uids (drawn w) in
     let clusterData := cluster_init (InitMembers [c; c]) in
     let cluster := Merge.mk (OfPayload clusterData) [c; c] in
     doSwipe state swipeA w
     = Ok (mkState
             (<[clusterId := Cluster.mk clusterId clusterData]> (clusters state))
             (<[Client.id c := moved (ref clusterId)
                                     (client_init (InitMerged cluster c))]>
                (clients state))
             [],
           mkWorld (ticks w1) (S (drawn w1))))
  ∧ (truthy (Client.clusterId c) = true →
       let cluster :=
         Merge.mk (OfRecord (clusters state !! toKey (Client.clusterId c)))
                  (getClientsInCluster (clients state) (Client.clusterId c) ++ [c]) in
       doSwipe state swipeA w
       = Ok (mkState
               (clusters state)
               (<[Client.id c := moved (Client.clusterId c)
                                       (client_init (InitMerged cluster c))]>
                  (clients state))
               [],
             w1)).
Proof.
  intros Hc Hsame HA Hid Hl Ht w1 moved.
  rewrite (doSwipe_candidate _ _ _ _ _ Hc). fold w1.
  apply getTransform_world in Ht as [_ Ht].
  assert (clients state !! Client.id c = Some c) as Hkey by by rewrite Hid.
  split; intros Htruthy; simpl.
  - assert (clusterClients state swipeA swipeB w1
            = Ok (mkState
                    (<[uids (drawn w) :=
                         Cluster.mk (uids (drawn w)) (cluster_init (InitMembers [c; c]))]>
                       (clusters state))
                    (<[Client.id c :=
                         moved (ref (uids (drawn w)))
                               (client_init
                                  (InitMerged
                                     (Merge.mk
                                        (OfPayload (cluster_init (InitMembers [c; c])))
                                        [c; c]) c))]>
                       (clients state))
                    (swipes state),
                  mkWorld (ticks w1) (S (drawn w1)))) as Hmerge.
    { unfold clusterClients. rewrite Hsame, HA, Htruthy.
      unfold createCluster.
      rewrite (bind_Ok uid _ w1 (uids (drawn w1)) (mkWorld (ticks w1) (S (drawn w1)))
                 eq_refl).
      rewrite (bind_Ok _ _ _ _ _ (Ht _)).
      unfold updatePair. rewrite decide_True by done.
      unfold updateAt, memberSpec, onTarget, push_connections.
      rewrite Hkey. simpl. by rewrite Hl. }
    by rewrite (bind_Ok _ _ _ _ _ Hmerge).
  - assert (clusterClients state swipeA swipeB w1
            = Ok (mkState
                    (clusters state)
                    (<[Client.id c :=
                         moved (Client.clusterId c)
                               (client_init
                                  (InitMerged
                                     (Merge.mk
                                        (OfRecord (clusters state
                                                   !! toKey (Client.clusterId c)))
                                        (getClientsInCluster (clients state)
                                           (Client.clusterId c) ++ [c])) c))]>
                       (clients state))
                    (swipes state),
                  w1)) as Hmerge.
    { unfold clusterClients. rewrite Hsame, HA, Htruthy.
      unfold joinCluster.
      rewrite (bind_Ok _ _ _ _ _ (Ht _)).
      unfold updatePair. rewrite decide_True by done.
      unfold updateAt, memberSpec, onTarget, push_connections.
      rewrite Hkey. simpl. by rewrite Hl. }
    by rewrite (bind_Ok _ _ _ _ _ Hmerge).
Qed.


Lemma getTransform_invalid (anchor joiner : Client) (anchorSwipe joinerSwipe : Swipe.t)
  (w : World) :
  Swipe.direction anchorSwipe ∉ ["LEFT"; "RIGHT"; "UP"; "DOWN"] →
  getTransform anchor anchorSwipe joiner joinerSwipe w
  = Throw (InvalidDirection (Swipe.direction anchorSwipe)).
Proof.
  intros Hbad. unfold getTransform.
  rewrite !(proj2 (String.eqb_neq _ _)); [done|..];
    intros Heq; apply Hbad; rewrite Heq; set_solver.
Qed.

(** X13. The direction of a swipe is looked at only when the swipe is
    the host's in a merge: the incoming swipe's when its client is in a
    cluster or when neither client is, the pending swipe's when only its
    client is. If that direction is none of LEFT, RIGHT, UP, DOWN, the
    action throws [InvalidDirection] with it, whatever else the state
    holds. *)
Theorem doSwipe_invalid_direction (state : State Data) (swipeA swipeB : Swipe.t)
  (others : list Swipe.t) (a b : Client) (w : World) :
  coincidentFrom (ticks w) (swipes state) = swipeB :: others →
  clients state !! Swipe.id swipeA = Some a →
  clients state !! Swipe.id swipeB = Some b →
  let hostSwipe :=
    if truthy (Client.clusterId a) then swipeA
    else if truthy (Client.clusterId b) then swipeB else swipeA in
  Swipe.direction hostSwipe ∉ ["LEFT"; "RIGHT"; "UP"; "DOWN"] →
  doSwipe state swipeA w = Throw (InvalidDirection (Swipe.direction hostSwipe)).
Proof.
  intros Hc HA HB hostSwipe Hbad.
  rewrite (doSwipe_candidate _ _ _ _ _ Hc). apply bind_Throw.
  unfold clusterClients. rewrite HA, HB. subst hostSwipe.
  destruct (truthy (Client.clusterId a)); [|destruct (truthy (Client.clusterId b))].
  - unfold joinCluster. apply bind_Throw. by apply getTransform_invalid.
  - unfold joinCluster. apply bind_Throw. by apply getTransform_invalid.
  - unfold createCluster. unfold mbind at 1, M_bind at 1. simpl.
    apply bind_Throw. by apply getTransform_invalid.
Qed.

(** *** What an action can change *)

Lemma updateAt_onTarget_Ok {R} (key : string) (f : R → option R)
  (objects objects' : gmap string R) (w w' : World) :
  updateAt key (onTarget f) objects w = Ok (objects', w') →
  w' = w ∧ ∃ r r', objects !! key = Some r ∧ f r = Some r'
                   ∧ objects' = <[key := r']> objects.
Proof.
  intros Hrun. apply updateAt_Ok in Hrun as (-> & v & Hv & ->).
  split; [done|]. unfold onTarget in Hv.
  destruct (objects !! key) as [r|]; [|done]. simpl in Hv. eauto.
Qed.

(** What a merge does to the clients: the records under the two keys are
    replaced by what the specs make of them; nothing is added or removed. *)
Lemma updatePair_onTarget_Ok {R} (keyA keyB : string) (fA fB : R → option R)
  (objects objects' : gmap string R) (w w' : World) :
  updatePair keyA (onTarget fA) keyB (onTarget fB) objects w = Ok (objects', w') →
  w' = w
  ∧ (∀ k, k ≠ keyA → k ≠ keyB → objects' !! k = objects !! k)
  ∧ (∀ k, is_Some (objects' !! k) ↔ is_Some (objects !! k))
  ∧ (∀ k r', objects' !! k = Some r' →
       ∃ r, objects !! k = Some r ∧ (r' = r ∨ fA r = Some r' ∨ fB r = Some r')).
Proof.
  unfold updatePair. case_decide as Hkeys.
  - intros Hrun. apply updateAt_onTarget_Ok in Hrun as (-> & r & r' & Hr & Hf & ->).
    split; [done|]. split; [|split].
    + intros k _ Hk. by rewrite lookup_insert_ne.
    + intros k. rewrite lookup_insert. case_decide; [subst|done].
      rewrite Hr. split; by eexists.
    + intros k v. rewrite lookup_insert. case_decide; [subst|by eauto].
      intros [= <-]. eauto.
  - intros Hrun. apply bind_inv in Hrun as (m1 & w1 & H1 & H2).
    apply updateAt_onTarget_Ok in H1 as (-> & a & a' & Ha & Hfa & ->).
    apply updateAt_onTarget_Ok in H2 as (-> & b & b' & Hb & Hfb & ->).
    rewrite lookup_insert_ne in Hb by done.
    split; [done|]. split; [|split].
    + intros k HkA HkB. by rewrite !lookup_insert_ne.
    + intros k. destruct (decide (k = keyB)) as [->|HkB].
      { rewrite lookup_insert_eq, Hb. split; by eexists. }
      rewrite lookup_insert_ne by done.
      destruct (decide (k = keyA)) as [->|HkA].
      { rewrite lookup_insert_eq, Ha. split; by eexists. }
      by rewrite lookup_insert_ne.
    + intros k v. destruct (decide (k = keyB)) as [->|HkB].
      { rewrite lookup_insert_eq. intros [= <-]. eauto. }
      rewrite lookup_insert_ne by done.
      destruct (decide (k = keyA)) as [->|HkA].
      { rewrite lookup_insert_eq. intros [= <-]. eauto. }
      rewrite lookup_insert_ne by done. eauto.
Qed.

Lemma push_connections_fields (ids : list string) (c c' : Client) :
  push_connections ids c = Some c' →
  Client.id c' = Client.id c ∧ Client.size c' = Client.size c
  ∧ Client.clusterId c' = Client.clusterId c
  ∧ Client.transform c' = Client.transform c
  ∧ Client.data c' = Client.data c.
Proof.
  unfold push_connections. destruct (Client.connections c); [|done].
  by intros [= <-].
Qed.

Lemma clusterClients_Ok (state state' : State Data) (swipeA swipeB : Swipe.t)
  (w w' : World) :
  clusterClients state swipeA swipeB w = Ok (state', w') →
  ticks w' = ticks w
  ∧ (drawn w' = drawn w ∨ drawn w' = S (drawn w))
  ∧ swipes state' = swipes state
  ∧ (∀ k, is_Some (clients state' !! k) ↔ is_Some (clients state !! k))
  ∧ (∀ k c', clients state' !! k = Some c' →
       ∃ c, clients state !! k = Some c
            ∧ Client.id c' = Client.id c ∧ Client.size c' = Client.size c)
  ∧ (∀ k, k ≠ uids (drawn w) → clusters state' !! k = clusters state !! k)
  ∧ (∀ k, is_Some (clusters state !! k) → is_Some (clusters state' !! k)).
Proof.
  assert (∀ cid d tr p (c c' : Client),
            (let c := Client.set_clusterId cid c in
             let c := Client.set_data d c in
             let c := from_option (λ t, Client.set_transform t c) c tr in
             push_connections [Swipe.id p] c) = Some c' →
            Client.id c' = Client.id c ∧ Client.size c' = Client.size c) as Hmember.
  { intros cid d tr p c c' Hpush. apply push_connections_fields in Hpush.
    destruct Hpush as (-> & -> & _). by destruct tr. }
  unfold clusterClients.
  destruct (clients state !! Swipe.id swipeA) as [a|]; [|done].
  assert (∀ host hs joiner js,
            joinCluster state host hs joiner js w = Ok (state', w') →
            w' = w ∧ swipes state' = swipes state
            ∧ clusters state' = clusters state
            ∧ (∀ k, is_Some (clients state' !! k) ↔ is_Some (clients state !! k))
            ∧ (∀ k c', clients state' !! k = Some c' →
                 ∃ c, clients state !! k = Some c
                      ∧ Client.id c' = Client.id c ∧ Client.size c' = Client.size c))
    as Hjoin.
  { intros host hs [joiner|] js; unfold joinCluster; [|done]. intros Hrun.
    apply bind_inv in Hrun as (t & w1 & Ht & Hrun).
    apply getTransform_world in Ht as [-> _].
    apply bind_inv in Hrun as (cs & w2 & Hup & Hret).
    apply ret_inv in Hret as [<- <-]. simpl.
    apply updatePair_onTarget_Ok in Hup as (-> & _ & Hdom & Hrec).
    repeat split; try done; try apply Hdom.
    intros k c' Hk. apply Hrec in Hk as (c & Hc & [-> | [Hf | Hf]]).
    - eauto.
    - apply push_connections_fields in Hf as (? & ? & _). eauto.
    - apply Hmember in Hf. eauto. }
  destruct (truthy (Client.clusterId a)).
  - intros Hrun. apply Hjoin in Hrun as (-> & Hsw & Hcl & Hdom & Hrec).
    rewrite Hcl. repeat split; eauto; apply Hdom.
  - destruct (clients state !! Swipe.id swipeB) as [b|]; [|done].
    destruct (truthy (Client.clusterId b)).
    + intros Hrun. apply Hjoin in Hrun as (-> & Hsw & Hcl & Hdom & Hrec).
      rewrite Hcl. repeat split; eauto; apply Hdom.
    + unfold createCluster. intros Hrun.
      apply bind_inv in Hrun as (u & w1 & Hu & Hrun). injection Hu as <- <-.
      apply bind_inv in Hrun as (t & w2 & Ht & Hrun).
      apply getTransform_world in Ht as [-> _].
      apply bind_inv in Hrun as (cs & w3 & Hup & Hret).
      apply ret_inv in Hret as [<- <-]. simpl.
      apply updatePair_onTarget_Ok in Hup as (-> & _ & Hdom & Hrec). simpl.
      split; [done|]. split; [by right|]. split; [done|].
      split; [apply Hdom|]. split; [|split].
      * intros k c' Hk. apply Hrec in Hk as (c & Hc & [-> | [Hf | Hf]]).
        -- eauto.
        -- apply Hmember in Hf. eauto.
        -- apply Hmember in Hf. eauto.
      * intros k Hk. by rewrite lookup_insert_ne.
      * intros k Hk. rewrite lookup_insert. by case_decide.
Qed.


Lemma clientAction_Ok (state state' : State Data) (id type : string) (data : Payload)
  (w w' : World) :
  clientAction state id type data w = Ok (state', w') →
  w' = w
  ∧ swipes state' = swipes state
  ∧ (∀ k, is_Some (clients state !! k) → is_Some (clients state' !! k)).
Proof.
  unfold clientAction. destruct (events_lookup type) as [handler|]; [|done].
  destruct (clients state !! id) as [client|]; [|by intros [= <- <-]].
  destruct (truthy (Client.clusterId client)); [|by intros [= <- <-]]. simpl.
  intros Hrun.
  apply bind_inv in Hrun as (updates & w0 & Hcall & Hrun).
  apply call_Ok in Hcall as ->.
  apply bind_inv in Hrun as (cl & w1 & Hcl & Hrun).
  apply bind_inv in Hrun as (cs & w2 & Hc & Hret).
  apply ret_inv in Hret as [<- <-]. simpl.
  assert (w1 = w) as ->.
  { destruct (Updates.cluster _); [by apply updateAt_Ok in Hcl as [-> _]|].
    by apply ret_inv in Hcl as [_ <-]. }
  destruct (Updates.client _) as [spec|].
  - apply updateAt_Ok in Hc as (-> & v & _ & ->). repeat split; [done..|].
    intros k Hk. rewrite lookup_insert. by case_decide.
  - by apply ret_inv in Hc as [<- <-].
Qed.

(** X15. Which action has which effect. Only a swipe reads the clock:
    once per queue entry, and once more when it queues the swipe. Only
    [connect], always, and a swipe, at most once, draw an id. Only a swipe
    changes the queue, and it leaves at most one entry. The tick, a client
    event, [leaveCluster], [disconnect] and an unknown action depend on
    nothing but the state. *)
Theorem reducer_effects (state state' : State Data) (action : Action Payload)
  (w w' : World) :
  reducer (Some state) action w = Ok (state', w') →
  match action with
  | SWIPE _ =>
      (ticks w + length (swipes state) ≤ ticks w'
       ∧ ticks w' ≤ S (ticks w + length (swipes state)))%nat
      ∧ (drawn w ≤ drawn w' ∧ drawn w' ≤ S (drawn w))%nat
      ∧ (length (swipes state') ≤ 1)%nat
  | CONNECT _ _ =>
      swipes state' = swipes state ∧ w' = mkWorld (ticks w) (S (drawn w))
  | _ => swipes state' = swipes state ∧ w' = w
  end.
Proof.
  intros Hrun. destruct action as [|id type data|id size|swipe|id|id|type];
    simpl in Hrun.
  - by apply nextState_Ok in Hrun as (-> & -> & _).
  - by apply clientAction_Ok in Hrun as (-> & -> & _).
  - rewrite connect_run in Hrun. by injection Hrun as <- <-.
  - destruct (coincidentFrom (ticks w) (swipes state)) as [|swipeB others] eqn:Hc.
    + rewrite doSwipe_no_candidate in Hrun by done. injection Hrun as <- <-.
      simpl. lia.
    + rewrite (doSwipe_candidate _ _ _ _ _ Hc) in Hrun.
      apply bind_inv in Hrun as (merged & w1 & Hmerge & Hret).
      apply ret_inv in Hret as [<- <-].
      apply clusterClients_Ok in Hmerge as (Ht & Hd & _). simpl in *. lia.
  - rewrite leaveCluster_run in Hrun. injection Hrun as <- <-.
    split; [|done]. destruct (clients state !! id) as [c|]; [|done].
    by destruct (isNil (Client.clusterId c)).
  - rewrite disconnect_run in Hrun. injection Hrun as <- <-.
    split; [|done]. by destruct (clients state !! id).
  - by injection Hrun as <- <-.
Qed.


(** *** The states the store can hold *)

(** X17. In every state the store can hold, the queue has at most one
    entry and that entry carries its receipt timestamp. *)
Theorem reachable_queue (state : State Data) :
  reachable state →
  (length (swipes state) ≤ 1)%nat
  ∧ ∀ s, s ∈ swipes state → is_Some (Swipe.timestamp s).
Proof.
  induction 1 as [|state action w state' w' _ [IHlen IHstamp] Hrun].
  - split; [simpl; lia|]. by intros s ?%elem_of_nil.
  - assert (swipes state' = swipes state ∨ swipes state' = []
            ∨ ∃ t swipe, swipes state' = [Swipe.set_timestamp t swipe]) as Hq.
    { destruct action as [|id type data|id size|swipe|id|id|type]; simpl in Hrun.
      - left. by apply nextState_Ok in Hrun as (_ & -> & _).
      - left. by apply clientAction_Ok in Hrun as (_ & -> & _).
      - left. rewrite connect_run in Hrun. by injection Hrun as <- _.
      - destruct (coincidentFrom (ticks w) (swipes state)) as [|swipeB others] eqn:Hc.
        + rewrite doSwipe_no_candidate in Hrun by done. injection Hrun as <- _.
          right. right. eauto.
        + rewrite (doSwipe_candidate _ _ _ _ _ Hc) in Hrun.
          apply bind_inv in Hrun as (merged & w1 & _ & Hret).
          apply ret_inv in Hret as [<- _]. right. by left.
      - left. rewrite leaveCluster_run in Hrun. injection Hrun as <- _.
        destruct (clients state !! id) as [c|]; [|done].
        by destruct (isNil (Client.clusterId c)).
      - left. rewrite disconnect_run in Hrun. injection Hrun as <- _.
        by destruct (clients state !! id).
      - left. by injection Hrun as <- _. }
    destruct Hq as [-> | [-> | (t & swipe & ->)]].
    + done.
    + split; [simpl; lia|]. by intros s ?%elem_of_nil.
    + split; [simpl; lia|]. intros s ->%list_elem_of_singleton. by eexists.
Qed.



(** *** The geometry of a placement *)

(** X20. On whole-pixel coordinates, sizes and touch positions of
    magnitude at most 2^50, where the sums and differences of the code's
    numbers are exact: where [getTransform] returns, the two screens share
    an edge and the two touch points meet: for LEFT the joiner's right edge is the
    anchor's left edge, for RIGHT its left edge is the anchor's right
    edge, and in both cases the touch points have the same height in the
    cluster's frame; for UP the joiner's bottom edge is the anchor's top
    edge, for DOWN its top edge is the anchor's bottom edge, and the touch
    points have the same abscissa. The placement depends on the joiner's
    swipe through its position only, and not on the joiner's transform. *)
Theorem getTransform_aligns (anchor joiner : Client) (anchorSwipe joinerSwipe : Swipe.t)
  (t : Point.t) (w w' : World) :
  exactPoint (Client.transform anchor) = true →
  exactSize (Client.size anchor) = true →
  exactSize (Client.size joiner) = true →
  exactPoint (Swipe.position anchorSwipe) = true →
  exactPoint (Swipe.position joinerSwipe) = true →
  getTransform anchor anchorSwipe joiner joinerSwipe w = Ok (t, w') →
  let a := Client.transform anchor in
  let touchA := Swipe.position anchorSwipe in
  let touchB := Swipe.position joinerSwipe in
  let d := Swipe.direction anchorSwipe in
  (d = "LEFT" ∧ Point.x t + Size.width (Client.size joiner) = Point.x a
   ∧ Point.y t + Point.y touchB = Point.y a + Point.y touchA
   ∨ d = "RIGHT" ∧ Point.x t = Point.x a + Size.width (Client.size anchor)
     ∧ Point.y t + Point.y touchB = Point.y a + Point.y touchA
   ∨ d = "UP" ∧ Point.y t + Size.height (Client.size joiner) = Point.y a
     ∧ Point.x t + Point.x touchB = Point.x a + Point.x touchA
   ∨ d = "DOWN" ∧ Point.y t = Point.y a + Size.height (Client.size anchor)
     ∧ Point.x t + Point.x touchB = Point.x a + Point.x touchA)
  ∧ (∀ joiner' joinerSwipe' w2,
       Client.size joiner' = Client.size joiner →
       Swipe.position joinerSwipe' = Swipe.position joinerSwipe →
       getTransform anchor anchorSwipe joiner' joinerSwipe' w2 = Ok (t, w2)).
Proof.
  intros _ _ _ _ _ Hrun a touchA touchB d. subst a touchA touchB d.
  unfold getTransform in *.
  destruct (String.eqb_spec (Swipe.direction anchorSwipe) "LEFT") as [HL|HL].
  { injection Hrun as <- <-. simpl. split; [left; split; [done|lia]|].
    intros ??? Hs Hp. by rewrite ?Hs, ?Hp. }
  destruct (String.eqb_spec (Swipe.direction anchorSwipe) "RIGHT") as [HR|HR].
  { injection Hrun as <- <-. simpl. split; [right; left; split; [done|lia]|].
    intros ??? Hs Hp. by rewrite ?Hs, ?Hp. }
  destruct (String.eqb_spec (Swipe.direction anchorSwipe) "UP") as [HU|HU].
  { injection Hrun as <- <-. simpl. split; [right; right; left; split; [done|lia]|].
    intros ??? Hs Hp. by rewrite ?Hs, ?Hp. }
  destruct (String.eqb_spec (Swipe.direction anchorSwipe) "DOWN") as [HD|HD].
  { injection Hrun as <- <-. simpl. split; [right; right; right; split; [done|lia]|].
    intros ??? Hs Hp. by rewrite ?Hs, ?Hp. }
  done.
Qed.

End Coverage.

(** ** The properties on the sample embedders *)

(** C1 on the sample platform, where 100 ms pass between the two swipes. *)
Lemma pairing_scenario_throws_witness :
  pairing_scenario (cfg := Sample.config) (plat := Sample.platform) Sample.w0
  = Throw UpdateError.
Proof.
  apply (pairing_scenario_throws (cfg := Sample.config) (plat := Sample.platform)
           Sample.w0).
  reflexivity.
Defined.

(** C2 on the state [Sample.waiting]: received 501 ms after the pending
    swipe, the swipe of ["a"] is queued; received 499 ms after it, the two
    clients end up in one cluster and the queue is empty. *)
Lemma coincidence_window_witness :
  doSwipe (cfg := Sample.config) (plat := Sample.slow)
          Sample.waiting Sample.swipe_a (mkWorld 1 0)
  = Ok (mkState (clusters Sample.waiting) (clients Sample.waiting)
                [Swipe.set_timestamp 1002 Sample.swipe_a], mkWorld 3 0)
  ∧ ∃ state' w',
      doSwipe (cfg := Sample.config) (plat := Sample.quick)
              Sample.waiting Sample.swipe_a (mkWorld 1 0) = Ok (state', w')
      ∧ swipes state' = []
      ∧ Client.clusterId <$> clients state' !! "a" = Some (ref "u")
      ∧ Client.clusterId <$> clients state' !! "c" = Some (ref "u").
Proof.
  split.
  - apply (coincidence_window (cfg := Sample.config) (plat := Sample.slow)
             Sample.waiting (Swipe.mk "c" "LEFT" (Point.mk 0 5) (Some 0))
             Sample.swipe_a 0 (mkWorld 1 0) eq_refl eq_refl).
    reflexivity.
  - rewrite (proj2 (coincidence_window (cfg := Sample.config) (plat := Sample.quick)
                      Sample.waiting (Swipe.mk "c" "LEFT" (Point.mk 0 5) (Some 0))
                      Sample.swipe_a 0 (mkWorld 1 0) eq_refl eq_refl) eq_refl).
    do 2 eexists. split; [vm_compute; reflexivity|].
    vm_compute. done.
Defined.

(** C3 on [Sample.hosting], where ["a"] is the only member of ["k"]: when
    it leaves or disconnects, the cluster record goes. *)
Lemma departure_cleanup_witness :
  (∃ state', leaveCluster Sample.hosting "a" Sample.w0 = Ok (state', Sample.w0)
             ∧ clusters state' !! "k" = None
             ∧ Client.clusterId <$> clients state' !! "a" = Some null)
  ∧ (∃ state', disconnect Sample.hosting "a" Sample.w0 = Ok (state', Sample.w0)
               ∧ clusters state' !! "k" = None
               ∧ clients state' !! "a" = None).
Proof.
  pose proof (departure_cleanup Sample.hosting "a" "k"
                (Sample.client "a" (ref "k") 100 50) Sample.w0 eq_refl eq_refl)
    as [Hleave Hgone].
  split; eexists; (split; [eassumption|]); vm_compute; done.
Defined.

(** C3 fails as stated: in [Sample.paired] the cluster ["k"] has the two
    members ["a"] and ["b"]; after ["a"] left, or disconnected, a single
    member remains and the cluster record is still there. *)
Lemma departure_keeps_single_member_cluster :
  (∃ state', leaveCluster Sample.paired "a" Sample.w0 = Ok (state', Sample.w0)
             ∧ length (getClientsInCluster (clients state') (ref "k")) = 1%nat
             ∧ clusters state' !! "k" = Some (Cluster.mk "k" 7))
  ∧ (∃ state', disconnect Sample.paired "a" Sample.w0 = Ok (state', Sample.w0)
               ∧ length (getClientsInCluster (clients state') (ref "k")) = 1%nat
               ∧ clusters state' !! "k" = Some (Cluster.mk "k" 7)).
Proof.
  split; eexists; (split; [vm_compute; reflexivity|]); vm_compute; done.
Defined.

(** C5 on [Sample.hosting]: ["a"], alone in cluster ["k"], swipes right
    100 ms after the swipe of ["c"]; ["c"] joins ["k"] at (100, 0). *)
Lemma join_merge_witness :
  doSwipe (cfg := Sample.config) (plat := Sample.platform)
          Sample.hosting Sample.swipe_a Sample.w0
  = Ok (mkState
          (clusters Sample.hosting)
          (<[ "c" := Client.mk "c" (Size.mk 80 40) (Point.mk 100 0) (ref "k")
                               (Some ["a"]) None None 0 ]>
             (<[ "a" := Client.mk "a" (Size.mk 100 50) (Point.mk 0 0) (ref "k")
                                  (Some ["c"]) None None 0 ]>
                (clients Sample.hosting)))
          [],
        mkWorld 1 0).
Proof.
  apply (join_merge (cfg := Sample.config) (plat := Sample.platform)
           Sample.hosting Sample.swipe_a
           (Swipe.mk "c" "LEFT" (Point.mk 0 5) (Some 900)) []
           (Sample.client "a" (ref "k") 100 50)
           (Sample.client "c" undefined 80 40)
           (Sample.client "a" (ref "k") 100 50)
           (Sample.client "c" undefined 80 40)
           Sample.swipe_a
           (Swipe.mk "c" "LEFT" (Point.mk 0 5) (Some 900))
           [] [] (Point.mk 100 0) Sample.w0);
    try reflexivity.
  - left. split; reflexivity.
  - discriminate.
Defined.

(** C5 fails as stated: after ["c"] joined the cluster ["k"] of ["a"], the
    data of ["k"] is still 7, not the value 1 that the cluster-init hook
    gives for the two members. *)
Lemma join_keeps_cluster_data :
  ∃ state' w',
    doSwipe (cfg := Sample.config) (plat := Sample.platform)
            Sample.hosting Sample.swipe_a Sample.w0 = Ok (state', w')
    ∧ length (getClientsInCluster (clients state') (ref "k")) = 2%nat
    ∧ Cluster.data <$> clusters state' !! "k" = Some 7
    ∧ cluster_init (Config := Sample.config)
        (InitMembers (getClientsInCluster (clients state') (ref "k"))) = 1.
Proof.
  do 2 eexists. split; [vm_compute; reflexivity|]. vm_compute. done.
Defined.

(** C6 on [Sample.stale]: the swipe received at time 0 is outside the
    window at time 1000, and the swipe of ["a"] takes over the queue. *)
Lemma doSwipe_queue_witness :
  doSwipe (cfg := Sample.config) (plat := Sample.platform)
          Sample.stale Sample.swipe_a Sample.w0
  = Ok (mkState ∅ ∅ [Swipe.set_timestamp 1100 Sample.swipe_a], mkWorld 2 0).
Proof.
  apply (proj1 (doSwipe_queue (cfg := Sample.config) (plat := Sample.platform)
                  Sample.stale Sample.swipe_a Sample.w0)).
  intros [|i] p; [|done]. by intros [= <-].
Defined.

(** C6 fails as stated: the stale entry of [Sample.stale] is removed from
    the stored queue by a swipe that finds no match. *)
Lemma unmatched_swipe_drops_stale_entry :
  let entry := Swipe.mk "b" "LEFT" (Point.mk 0 5) (Some 0) in
  ∃ state' w',
    coincidentFrom (plat := Sample.platform) 0 (swipes Sample.stale) = []
    ∧ doSwipe (cfg := Sample.config) (plat := Sample.platform)
              Sample.stale Sample.swipe_a Sample.w0 = Ok (state', w')
    ∧ entry ∈ swipes Sample.stale
    ∧ swipes state' = [Swipe.set_timestamp 1100 Sample.swipe_a]
    ∧ entry ∉ swipes state'.
Proof.
  do 2 eexists. split; [reflexivity|]. split; [vm_compute; reflexivity|].
  split; [left|]. split; [reflexivity|].
  intros Hin. apply list_elem_of_singleton in Hin. discriminate.
Defined.

(** C7 on [Sample.connected]: ["drag"] is no property at all and throws;
    ["touch"] is registered and ["toString"] is inherited from
    [Object.prototype], and for both an unknown client, or one that is in
    no cluster, gets the state back. *)
Lemma clientAction_unhandled_or_noop_witness :
  reducer (cfg := Sample.config) (plat := Sample.platform)
          (Some Sample.connected) (CLIENT_ACTION "1" "drag" tt) Sample.w0
  = Throw (UnhandledEvent "drag")
  ∧ reducer (cfg := Sample.config) (plat := Sample.platform)
            (Some Sample.connected) (CLIENT_ACTION "9" "touch" tt) Sample.w0
    = Ok (Sample.connected, Sample.w0)
  ∧ reducer (cfg := Sample.config) (plat := Sample.platform)
            (Some Sample.connected) (CLIENT_ACTION "1" "touch" tt) Sample.w0
    = Ok (Sample.connected, Sample.w0)
  ∧ client_events (Config := Sample.config) "toString" = None
  ∧ reducer (cfg := Sample.config) (plat := Sample.platform)
            (Some Sample.connected) (CLIENT_ACTION "1" "toString" tt) Sample.w0
    = Ok (Sample.connected, Sample.w0).
Proof.
  split; [|split; [|split; [|split]]].
  - apply (proj1 (clientAction_unhandled_or_noop
                    (cfg := Sample.config) (plat := Sample.platform)
                    Sample.connected "1" "drag" tt Sample.w0));
      reflexivity.
  - apply (proj2 (clientAction_unhandled_or_noop
                    (cfg := Sample.config) (plat := Sample.platform)
                    Sample.connected "9" "touch" tt Sample.w0)).
    + left. by eexists.
    + by left.
  - apply (proj2 (clientAction_unhandled_or_noop
                    (cfg := Sample.config) (plat := Sample.platform)
                    Sample.connected "1" "touch" tt Sample.w0)).
    + left. by eexists.
    + right. eexists. split; reflexivity.
  - reflexivity.
  - apply (proj2 (clientAction_unhandled_or_noop
                    (cfg := Sample.config) (plat := Sample.platform)
                    Sample.connected "1" "toString" tt Sample.w0)).
    + right. by eexists.
    + right. eexists. split; reflexivity.
Defined.

(** For a client in a cluster the inherited function is called in the
    handler's place: [toString] gives a string, which holds no update, and
    [hasOwnProperty], called without a receiver, raises a [TypeError]. *)
Example inherited_name_is_called :
  clientAction (cfg := Sample.config) Sample.paired "a" "toString" tt Sample.w0
  = Ok (Sample.paired, Sample.w0)
  ∧ clientAction (cfg := Sample.config) Sample.paired "a" "hasOwnProperty" tt
                 Sample.w0
    = Throw TypeError.
Proof.
  split; [vm_compute; reflexivity | reflexivity].
Qed.

(** C8 on the example of the specification, with A at the origin. *)
Lemma getTransform_spec_witness :
  getTransform (Sample.client "a" undefined 100 50) Sample.swipe_a
               (Sample.client "b" undefined 80 40)
               (Swipe.mk "b" "LEFT" (Point.mk 0 5) None) Sample.w0
  = Ok (Point.mk 100 0, Sample.w0)
  ∧ getTransform (Sample.client "a" undefined 100 50)
                 (Swipe.mk "a" "NORTH" (Point.mk 10 5) None)
                 (Sample.client "b" undefined 80 40)
                 (Swipe.mk "b" "LEFT" (Point.mk 0 5) None) Sample.w0
    = Throw (InvalidDirection "NORTH").
Proof.
  split.
  - apply (getTransform_spec (Sample.client "a" undefined 100 50)
             (Sample.client "b" undefined 80 40) Sample.swipe_a
             (Swipe.mk "b" "LEFT" (Point.mk 0 5) None) Sample.w0);
      reflexivity.
  - apply (getTransform_spec (Sample.client "a" undefined 100 50)
             (Sample.client "b" undefined 80 40)
             (Swipe.mk "a" "NORTH" (Point.mk 10 5) None)
             (Swipe.mk "b" "LEFT" (Point.mk 0 5) None) Sample.w0);
      discriminate.
Defined.

(** C10 on [Sample.connected], the state after one [connect]: the tick
    updates the cluster ["u"] and skips the client ["1"]. *)
Lemma connected_client_is_clusterless_witness :
  reducer (cfg := Sample.config) (plat := Sample.platform)
          None (CONNECT "1" (Size.mk 100 100)) Sample.w0
  = Ok (Sample.connected, mkWorld 0 1)
  ∧ Client.clusterId <$> clients Sample.connected !! "1" = Some undefined
  ∧ clientAction (cfg := Sample.config) Sample.connected "1" "touch" tt Sample.w0
    = Ok (Sample.connected, Sample.w0)
  ∧ ∃ state',
      nextState (cfg := Sample.config) Sample.connected Sample.w0
      = Ok (state', Sample.w0)
      ∧ Cluster.data <$> clusters state' !! "u" = Some 11
      ∧ clients state' !! "1" = clients Sample.connected !! "1".
Proof.
  assert (reducer (cfg := Sample.config) (plat := Sample.platform)
            None (CONNECT "1" (Size.mk 100 100)) Sample.w0
          = Ok (Sample.connected, mkWorld 0 1)) as Hrun by reflexivity.
  pose proof (connected_client_is_clusterless
                (cfg := Sample.config) (plat := Sample.platform)
                Sample.connected "1"
                (Client.mk "1" (Size.mk 100 100) (Point.mk 0 0) undefined None
                           (Some []) (Some "u") 0)
                (reachable_step initialState (CONNECT "1" (Size.mk 100 100))
                   Sample.w0 _ _ reachable_initial Hrun)
                eq_refl)
    as (Hnil & _ & _ & _ & Htick & Haction & _).
  split; [exact Hrun|]. split; [reflexivity|]. split.
  - apply Haction. by eexists.
  - eexists. split; [vm_compute; reflexivity|]. split; [vm_compute; done|].
    apply (Htick Sample.w0 _ Sample.w0). vm_compute. reflexivity.
Defined.

(** The tick on [Sample.paired]: the cluster and both its members are
    updated by their hooks. *)
Example nextState_paired :
  ∃ state',
    nextState (cfg := Sample.config) Sample.paired Sample.w0
    = Ok (state', Sample.w0)
    ∧ Cluster.data <$> clusters state' !! "k" = Some 17
    ∧ Client.data <$> clients state' !! "a" = Some 1
    ∧ Client.data <$> clients state' !! "b" = Some 1.
Proof.
  eexists. split; [vm_compute; reflexivity|]. vm_compute. done.
Qed.

(** The second swipe of the pairing scenario on clients that carry a
    [connections] array: both clients get the new cluster id, the queue is
    emptied and client 2 is 100 to the right of client 1. *)
Example pairing_with_connections :
  ∃ state' w' c1 c2,
    doSwipe (cfg := Sample.config) (plat := Sample.platform)
            Sample.scenario_with_connections
            (Swipe.mk "2" "LEFT" (Point.mk 50 50) None) (mkWorld 1 0)
    = Ok (state', w')
    ∧ clients state' !! "1" = Some c1
    ∧ clients state' !! "2" = Some c2
    ∧ Client.clusterId c1 = ref "u"
    ∧ Client.clusterId c2 = ref "u"
    ∧ swipes state' = []
    ∧ Point.x (Client.transform c2) = Point.x (Client.transform c1) + 100.
Proof.
  do 4 eexists. split; [vm_compute; reflexivity|].
  split; [vm_compute; reflexivity|]. split; [vm_compute; reflexivity|].
  vm_compute. done.
Qed.

(** ** The further properties on the sample embedders *)

(** X1 on [Sample.paired]: the tick adds 10 to the data of the cluster and
    1 to the data of its two members. *)
Lemma nextState_effect_witness :
  ∃ state',
    nextState (cfg := Sample.config) Sample.paired Sample.w0 = Ok (state', Sample.w0)
    ∧ swipes state' = []
    ∧ clusters state' !! "k" = Some (Cluster.mk "k" 17)
    ∧ Client.id <$> clients state' !! "a" = Some "a".
Proof.
  eexists. split; [vm_compute; reflexivity|].
  match goal with
  | |- context [clusters ?s] =>
      pose proof (nextState_effect (cfg := Sample.config) Sample.paired s
                    Sample.w0 Sample.w0 eq_refl)
        as (_ & Hsw & _ & Hid & Hcl & _)
  end.
  split; [exact Hsw|]. split.
  - destruct (Hcl _ "k" (Cluster.mk "k" 7) eq_refl eq_refl) as (d & Hd & Hk).
    injection Hd as <-. exact Hk.
  - rewrite Hid. reflexivity.
Defined.

(** X2 on [Sample.negative]: the cluster hook of [Sample.strict] rejects
    the data -1 and the tick throws. *)
Lemma nextState_failure_witness :
  nextState (cfg := Sample.strict) Sample.negative Sample.w0 = Throw UpdateError.
Proof.
  eapply (proj1 (nextState_failure (cfg := Sample.strict) Sample.negative Sample.w0)
            _ "k" (Cluster.mk "k" (-1))); reflexivity.
Defined.

(** X3 on [Sample.paired]: the event ["bump"] of client ["a"] changes the
    cluster ["k"] and the client ["a"], and leaves ["b"] alone. *)
Lemma clientAction_effect_witness :
  ∃ state',
    clientAction (cfg := Sample.strict) Sample.paired "a" "bump" tt Sample.w0
    = Ok (state', Sample.w0)
    ∧ clusters state' !! "k" = Some (Cluster.mk "k" 8)
    ∧ Client.data <$> clients state' !! "a" = Some 5
    ∧ clients state' !! "b" = clients Sample.paired !! "b".
Proof.
  eexists. split; [vm_compute; reflexivity|].
  match goal with
  | |- context [clusters ?s] =>
      pose proof (proj1 (clientAction_effect (cfg := Sample.strict)
                           Sample.paired "a" "bump" tt _
                           (Sample.client "a" (ref "k") 100 50) Sample.w0
                           eq_refl eq_refl eq_refl)
                    s Sample.w0 eq_refl)
        as (_ & _ & Hcl & Hc & _ & Hother)
  end.
  split; [vm_compute; reflexivity|]. split; [vm_compute; reflexivity|].
  by apply Hother.
Defined.

(** X5 on [Sample.paired]: leaving a second time changes nothing. *)
Lemma departure_idempotent_witness :
  ∃ state',
    leaveCluster Sample.paired "a" Sample.w0 = Ok (state', Sample.w0)
    ∧ leaveCluster state' "a" Sample.w0 = Ok (state', Sample.w0).
Proof.
  eexists. split; [vm_compute; reflexivity|].
  apply (proj1 (departure_idempotent Sample.paired _ "a" Sample.w0 Sample.w0)).
  vm_compute. reflexivity.
Defined.


(** X9 on [Sample.crowded]: the expired swipe of ["b"] is passed over, the
    swipe of ["c"] is the partner, and the swipe of ["d"] is discarded. *)
Lemma doSwipe_first_candidate_witness :
  ∃ state' w',
    doSwipe (cfg := Sample.config) (plat := Sample.platform)
            Sample.crowded Sample.swipe_a Sample.w0 = Ok (state', w')
    ∧ swipes state' = []
    ∧ Client.connections <$> clients state' !! "a" = Some (Some ["c"])
    ∧ Client.connections <$> clients state' !! "c" = Some (Some ["a"]).
Proof.
  rewrite (doSwipe_first_candidate (cfg := Sample.config) (plat := Sample.platform)
             Sample.crowded Sample.swipe_a
             (Swipe.mk "c" "LEFT" (Point.mk 0 5) (Some 900))
             [Swipe.mk "b" "UP" (Point.mk 1 1) (Some (-1000))]
             [Swipe.mk "d" "DOWN" (Point.mk 2 2) (Some 950)]
             Sample.w0 eq_refl).
  - do 2 eexists. split; [vm_compute; reflexivity|]. vm_compute. done.
  - intros [|i] s; [|done]. by intros [= <-].
  - reflexivity.
Defined.

(** X10 on [Sample.waiting]: ["a"] and ["c"] end up in the new cluster
    ["u"], with ["c"] at (100, 0). *)
Lemma create_merge_witness :
  ∃ state' w',
    doSwipe (cfg := Sample.config) (plat := Sample.quick)
            Sample.waiting Sample.swipe_a (mkWorld 1 0) = Ok (state', w')
    ∧ clusters state' !! "u" = Some (Cluster.mk "u" 1)
    ∧ Client.transform <$> clients state' !! "a" = Some (Point.mk 0 0)
    ∧ Client.transform <$> clients state' !! "c" = Some (Point.mk 100 0).
Proof.
  do 2 eexists. split.
  - apply (create_merge (cfg := Sample.config) (plat := Sample.quick)
             Sample.waiting Sample.swipe_a
             (Swipe.mk "c" "LEFT" (Point.mk 0 5) (Some 0)) []
             (Sample.client "a" undefined 100 50)
             (Sample.client "c" undefined 80 40)
             [] [] (Point.mk 100 0) (mkWorld 1 0));
      try reflexivity.
    discriminate.
  - vm_compute. done.
Defined.

(** X11 on [Sample.waiting] and [Sample.shifting]: the client ["c"], in
    no cluster, is paired with itself into the cluster ["u"]; the client
    ["a"], in the cluster ["k"], moves itself by its own width. *)
Lemma self_match_witness :
  (∃ state' w',
     doSwipe (cfg := Sample.config) (plat := Sample.quick)
             Sample.waiting (Swipe.mk "c" "RIGHT" (Point.mk 0 5) None) (mkWorld 1 0)
     = Ok (state', w')
     ∧ Client.clusterId <$> clients state' !! "c" = Some (ref "u")
     ∧ Client.connections <$> clients state' !! "c" = Some (Some ["c"])
     ∧ Client.clusterId <$> clients state' !! "a" = Some undefined)
  ∧ (∃ state' w',
       doSwipe (cfg := Sample.config) (plat := Sample.quick)
               Sample.shifting Sample.swipe_a (mkWorld 1 0) = Ok (state', w')
       ∧ Client.transform <$> clients state' !! "a" = Some (Point.mk 100 0)
       ∧ Client.connections <$> clients state' !! "a" = Some (Some ["a"])).
Proof.
  split.
  - do 2 eexists. split.
    + apply (proj1 (self_match (cfg := Sample.config) (plat := Sample.quick)
                      Sample.waiting (Swipe.mk "c" "RIGHT" (Point.mk 0 5) None)
                      (Swipe.mk "c" "LEFT" (Point.mk 0 5) (Some 0)) []
                      (Sample.client "c" undefined 80 40) [] (Point.mk 80 0)
                      (mkWorld 1 0) eq_refl eq_refl eq_refl eq_refl eq_refl eq_refl)).
      reflexivity.
    + vm_compute. done.
  - do 2 eexists. split.
    + apply (proj2 (self_match (cfg := Sample.config) (plat := Sample.quick)
                      Sample.shifting Sample.swipe_a
                      (Swipe.mk "a" "RIGHT" (Point.mk 10 5) (Some 0)) []
                      (Sample.client "a" (ref "k") 100 50) [] (Point.mk 100 0)
                      (mkWorld 1 0) eq_refl eq_refl eq_refl eq_refl eq_refl eq_refl)).
      reflexivity.
    + vm_compute. done.
Defined.


(** X13 on [Sample.waiting]: a swipe to the ["NORTH"] is matched and
    throws. *)
Lemma doSwipe_invalid_direction_witness :
  doSwipe (cfg := Sample.config) (plat := Sample.quick)
          Sample.waiting (Swipe.mk "a" "NORTH" (Point.mk 10 5) None) (mkWorld 1 0)
  = Throw (InvalidDirection "NORTH").
Proof.
  apply (doSwipe_invalid_direction (cfg := Sample.config) (plat := Sample.quick)
           Sample.waiting (Swipe.mk "a" "NORTH" (Point.mk 10 5) None)
           (Swipe.mk "c" "LEFT" (Point.mk 0 5) (Some 0)) []
           (Sample.client "a" undefined 100 50)
           (Sample.client "c" undefined 80 40)
           (mkWorld 1 0) eq_refl eq_refl eq_refl).
  simpl. intros Hin.
  repeat (apply elem_of_cons in Hin as [Hin|Hin]; [discriminate Hin|]).
  by apply elem_of_nil in Hin.
Defined.


(** X15 on [Sample.connected]: a [disconnect] reads no clock and draws no
    id. *)
Lemma reducer_effects_witness :
  ∃ state',
    reducer (cfg := Sample.config) (plat := Sample.platform)
            (Some Sample.connected) (DISCONNECT "1") Sample.w0
    = Ok (state', Sample.w0)
    ∧ swipes state' = swipes Sample.connected.
Proof.
  eexists. split; [vm_compute; reflexivity|].
  match goal with
  | |- swipes ?s = _ =>
      apply (reducer_effects (cfg := Sample.config) (plat := Sample.platform)
               Sample.connected s (DISCONNECT "1") Sample.w0 Sample.w0 eq_refl)
  end.
Defined.


Lemma reachable_connected :
  reachable (cfg := Sample.config) (plat := Sample.platform) (Payload := unit)
            Sample.connected.
Proof.
  apply (reachable_step initialState (CONNECT "1" (Size.mk 100 100))
           Sample.w0 _ (mkWorld 0 1) reachable_initial).
  reflexivity.
Defined.

(** X4 on [Sample.neighbours]: ["k"] is the id of a stored cluster, and
    when its only member leaves, the cluster ["m"] is as it was. *)
Lemma departure_frame_witness :
  readAsKey (clusters Sample.neighbours) (ref "k") = true
  ∧ ∃ state',
      leaveCluster Sample.neighbours "a" Sample.w0 = Ok (state', Sample.w0)
      ∧ clusters state' !! "m" = Some (Cluster.mk "m" 8).
Proof.
  split; [reflexivity|].
  destruct (proj1 (departure_frame Sample.neighbours "a" Sample.w0))
    as (state' & Hrun & _ & _ & Hc & _).
  assert (clients Sample.neighbours !! "a"
          = Some (Sample.client "a" (ref "k") 100 50)) as Ha by reflexivity.
  destruct (Hc _ Ha) as (_ & Hframe & _).
  exists state'. split; [exact Hrun|].
  rewrite (Hframe eq_refl "m"); [reflexivity | discriminate].
Defined.

(** An id with a dot that names no stored cluster is one that [_.omit]
    reads as a path; an id that names a stored cluster, or has neither a
    dot nor a bracket, is read as a property name. *)
Example readAsKey_cases :
  readAsKey (clusters Sample.paired) (ref "k.data") = false
  ∧ readAsKey (clusters Sample.paired) (ref "k") = true
  ∧ readAsKey (clusters Sample.paired) (ref "u-1") = true
  ∧ readAsKey (<[ "k.data" := Cluster.mk "k.data" 1 ]> (clusters Sample.paired))
              (ref "k.data") = true
  ∧ readAsKey (clusters Sample.paired) undefined = true.
Proof.
  split; [|split; [|split; [|split]]]; reflexivity.
Qed.

Lemma reachable_swiped :
  reachable (cfg := Sample.config) (plat := Sample.platform) (Payload := unit)
            Sample.swiped.
Proof.
  apply (reachable_step Sample.connected
           (SWIPE (Swipe.mk "1" "RIGHT" (Point.mk 50 50) None))
           (mkWorld 0 1) _ (mkWorld 1 1) reachable_connected).
  vm_compute. reflexivity.
Defined.

(** X17 on [Sample.swiped], the state after a connection and one swipe:
    its queue holds one entry, stamped 1000. *)
Lemma reachable_queue_witness :
  swipes Sample.swiped = [Swipe.mk "1" "RIGHT" (Point.mk 50 50) (Some 1000)]
  ∧ (length (swipes Sample.swiped) ≤ 1)%nat
  ∧ is_Some (Swipe.timestamp (Swipe.mk "1" "RIGHT" (Point.mk 50 50) (Some 1000))).
Proof.
  split; [reflexivity|].
  destruct (reachable_queue (cfg := Sample.config) (plat := Sample.platform)
              Sample.swiped reachable_swiped) as [Hlen Hstamp].
  split; [exact Hlen|].
  apply Hstamp. apply elem_of_cons. by left.
Defined.



(** X20 on the example of the specification: B's left edge is A's right
    edge and the touch points are level. *)
Lemma getTransform_aligns_witness :
  let a := Sample.client "a" undefined 100 50 in
  let b := Sample.client "b" undefined 80 40 in
  ∃ t, getTransform a Sample.swipe_a b (Swipe.mk "b" "LEFT" (Point.mk 0 5) None)
                    Sample.w0 = Ok (t, Sample.w0)
       ∧ Point.x t = 100 ∧ Point.y t + 5 = 0 + 5.
Proof.
  eexists. split; [vm_compute; reflexivity|].
  destruct (proj1 (getTransform_aligns
                     (Sample.client "a" undefined 100 50)
                     (Sample.client "b" undefined 80 40) Sample.swipe_a
                     (Swipe.mk "b" "LEFT" (Point.mk 0 5) None)
                     (Point.mk 100 0) Sample.w0 Sample.w0
                     eq_refl eq_refl eq_refl eq_refl eq_refl eq_refl))
    as [(Hd & _) | [(_ & Hx & Hy) | [(Hd & _) | (Hd & _)]]];
    try discriminate Hd.
  split; [exact Hx | exact Hy].
Defined.
